(** * Route handlers of the flight-booking chatbot API

    A shallow embedding of the Hono route handlers
    ([server/routes/reservation], [server/routes/chat],
    [server/routes/history]) and of [server/middlewares/session].

    Handlers are asynchronous functions that read a request, talk to the
    database accessors of [@/db/queries], and either return a response or
    throw.  They are embedded in a state-and-exception monad over a
    [World] holding the stored rows, the answers of the external
    collaborators, and a trace of the effects performed so far. *)

From Stdlib Require Import ZArith String Ascii List Bool.
From stdpp Require Import base option strings gmap.

Local Open Scope string_scope.
Local Open Scope Z_scope.

(** ** Data model *)

(** [next-auth]'s [Session]: [user] is optional, and so is [user.id]. *)
Record User := { user_id : option string }.
Record Session := { session_user : option User }.

(** The two roles admitted by the request schema. *)
Inductive Role := RoleUser | RoleAssistant.

(** A message as it arrives in the request body, after validation. *)
Record Message := { m_role : Role; m_content : string }.

(** Messages of the text-generation SDK.  Content is either a string or
    an array of parts; both have a [length]. *)
Inductive CoreRole := CoreSystem | CoreUser | CoreAssistant | CoreTool.
Inductive Content := ContentText (s : string) | ContentParts (parts : list string).
Record CoreMessage := { role : CoreRole; content : Content }.

Record Endpoint := {
  cityName : string; airportCode : string; timestamp : string;
  gate : string; terminal : string }.

(** Parameters of the [createReservation] tool. *)
Record Props := {
  seats : list string; flightNumber : string;
  departure : Endpoint; arrival : Endpoint; passengerName : string }.

Record Details := { props : Props; totalPriceInUSD : Z }.

Record Reservation := {
  res_id : string; res_userId : string;
  hasCompletedPayment : bool; details : Details }.

Record Chat := {
  chat_id : string; chat_userId : string; chat_messages : list CoreMessage }.

(** Parsed JSON, as returned by [c.req.json()]. *)
#[warnings="-register-all"]
Inductive JSON :=
| JNull
| JBool (b : bool)
| JNumber (n : Z)
| JString (s : string)
| JArray (items : list JSON)
| JObject (fields : list (string * JSON)).

(** ** Exceptions and responses *)

Inductive Exn :=
| HTTPException (status : Z) (message : string)
| TypeError (message : string)
| SyntaxError
| DbError.

Inductive Payload :=
| PReservation (r : option Reservation)
| PText (s : string)
| PDummyChats
| PValidationError
| PDataStream.

Record Response := {
  status : Z; headers : list (string * string); payload : Payload }.

(** ** The world: rows, collaborators, trace *)

Record Db := {
  reservations : gmap string Reservation;
  chats : gmap string Chat }.

(** A call to one of the accessors of [@/db/queries], with its arguments. *)
Inductive DbCall :=
| CallGetReservationById (id : string)
| CallUpdateReservation (id : string) (paid : bool)
| CallCreateReservation (id userId : string) (d : Details)
| CallGetChatById (id : string)
| CallDeleteChatById (id : string)
| CallSaveChat (id : string) (messages : list CoreMessage) (userId : string).

Inductive Event :=
| EvDb (call : DbCall)
| EvAuth
| EvGenerateUUID
| EvPrice
| EvReqJson
| EvStreamText (messages : list CoreMessage)
| EvConsoleError (message : string).

(** Answers of the collaborators that live outside the handlers: whether
    a database call rejects, what the n-th [auth()] resolves to, the n-th
    generated identifier, and the synthetic price of a booking. *)
Record Env := {
  db_rejects : DbCall -> bool;
  auth_result : nat -> option Session;
  uuid_at : nat -> string;
  reservationPrice : Props -> Z }.

Record World := {
  env : Env;
  db : Db;
  auth_calls : nat;
  uuid_calls : nat;
  trace : list Event }.

Definition set_db (d : Db) (w : World) : World :=
  {| env := env w; db := d; auth_calls := auth_calls w;
     uuid_calls := uuid_calls w; trace := trace w |}.

Definition log_event (e : Event) (w : World) : World :=
  {| env := env w; db := db w; auth_calls := auth_calls w;
     uuid_calls := uuid_calls w; trace := trace w ++ [e] |}.

(** ** The handler monad *)

Inductive Result (A : Type) :=
| Ok (a : A)
| Throw (e : Exn).
Arguments Ok {A} a.
Arguments Throw {A} e.

Definition M (A : Type) : Type := World -> Result A * World.

Definition ret {A} (a : A) : M A := fun w => (Ok a, w).

Definition bind {A B} (m : M A) (k : A -> M B) : M B :=
  fun w =>
    match m w with
    | (Ok a, w') => k a w'
    | (Throw e, w') => (Throw e, w')
    end.

Definition throw {A} (e : Exn) : M A := fun w => (Throw e, w).

(** [try { m } catch (error) { h error }] *)
Definition try_catch {A} (m : M A) (h : Exn -> M A) : M A :=
  fun w =>
    match m w with
    | (Ok a, w') => (Ok a, w')
    | (Throw e, w') => h e w'
    end.

Definition emit (e : Event) : M unit := fun w => (Ok tt, log_event e w).

Notation "'let*' x ':=' m 'in' k" := (bind m (fun x => k))
  (at level 10, x name, m at level 100, k at level 200).

(** ** Collaborators *)

(** [auth()] of the session provider: resolves to the next answer. *)
Definition auth : M (option Session) :=
  fun w =>
    (Ok (auth_result (env w) (auth_calls w)),
     {| env := env w; db := db w; auth_calls := S (auth_calls w);
        uuid_calls := uuid_calls w; trace := trace w ++ [EvAuth] |}).

(** Modelled from the spec: [generateUUID] of [@/lib/utils] is not among
    the sources; it yields a fresh identifier on each call. *)
Definition generateUUID : M string :=
  fun w =>
    (Ok (uuid_at (env w) (uuid_calls w)),
     {| env := env w; db := db w; auth_calls := auth_calls w;
        uuid_calls := S (uuid_calls w); trace := trace w ++ [EvGenerateUUID] |}).

(** Modelled from the spec: [generateReservationPrice] of [@/ai/actions]
    is not among the sources; the spec calls it a synthetic pricing
    function of the booking. *)
Definition generateReservationPrice (p : Props) : M Z :=
  fun w => (Ok (reservationPrice (env w) p), log_event EvPrice w).

Module Queries.

(** Every accessor first records its call; a rejected call throws and
    leaves the rows as they were. *)
Definition db_call (call : DbCall) : M unit :=
  fun w =>
    let w' := log_event (EvDb call) w in
    if db_rejects (env w) call then (Throw DbError, w') else (Ok tt, w').

Definition read_db : M Db := fun w => (Ok (db w), w).
Definition write_db (d : Db) : M unit := fun w => (Ok tt, set_db d w).

(** Modelled from the spec: [getReservationById] of [@/db/queries] is
    not among the sources; it fetches the reservation with the given
    identifier, [None] standing for the undefined of a missing row. *)
Definition getReservationById (id : string) : M (option Reservation) :=
  let* _ := db_call (CallGetReservationById id) in
  let* d := read_db in
  ret (reservations d !! id).

Definition with_payment (paid : bool) (r : Reservation) : Reservation :=
  {| res_id := res_id r; res_userId := res_userId r;
     hasCompletedPayment := paid; details := details r |}.

(** Modelled from the spec: [updateReservation] of [@/db/queries] is not
    among the sources; it sets the payment flag of the stored row and
    returns the updated reservation. *)
Definition updateReservation (id : string) (paid : bool)
  : M (option Reservation) :=
  let* _ := db_call (CallUpdateReservation id paid) in
  let* d := read_db in
  let rs := alter (with_payment paid) id (reservations d) in
  let* _ := write_db {| reservations := rs; chats := chats d |} in
  ret (rs !! id).

(** Modelled from the spec: [createReservation] of [@/db/queries] is not
    among the sources; it persists a new, unpaid reservation under the
    given user. *)
Definition createReservation (id userId : string) (dt : Details) : M unit :=
  let* _ := db_call (CallCreateReservation id userId dt) in
  let* d := read_db in
  let r := {| res_id := id; res_userId := userId;
              hasCompletedPayment := false; details := dt |} in
  write_db {| reservations := <[id := r]> (reservations d);
              chats := chats d |}.

(** Modelled from the spec: [getChatById] of [@/db/queries] is not among
    the sources; it fetches the chat with the given identifier. *)
Definition getChatById (id : string) : M (option Chat) :=
  let* _ := db_call (CallGetChatById id) in
  let* d := read_db in
  ret (chats d !! id).

(** Modelled from the spec: [deleteChatById] of [@/db/queries] is not
    among the sources; it removes the chat with the given identifier. *)
Definition deleteChatById (id : string) : M unit :=
  let* _ := db_call (CallDeleteChatById id) in
  let* d := read_db in
  write_db {| reservations := reservations d;
              chats := delete id (chats d) |}.

(** Modelled from the spec: [saveChat] of [@/db/queries] is not among
    the sources; it persists the message history under the given
    conversation and user identifiers. *)
Definition saveChat (id : string) (messages : list CoreMessage)
    (userId : string) : M unit :=
  let* _ := db_call (CallSaveChat id messages userId) in
  let* d := read_db in
  let ch := {| chat_id := id; chat_userId := userId;
               chat_messages := messages |} in
  write_db {| reservations := reservations d;
              chats := <[id := ch]> (chats d) |}.

End Queries.

(** ** JavaScript helpers *)

(** Truthiness of a string: the empty string is falsy. *)
Definition truthy (s : string) : bool := negb (String.eqb s "").

(** [a !== b] for a string and a possibly undefined string. *)
Definition strict_neq (a : string) (b : option string) : bool :=
  match b with
  | Some s => negb (String.eqb a s)
  | None => true
  end.

Definition lower_ascii (c : ascii) : ascii :=
  let n := nat_of_ascii c in
  if (Nat.leb 65 n && Nat.leb n 90)%bool then ascii_of_nat (n + 32) else c.

(** [String.prototype.toLowerCase] on the letters A to Z.  No character
    outside A to Z lowers to one of the letters of the confirmation
    word, so comparisons with that word are not affected by the letters
    left alone here. *)
Fixpoint toLowerCase (s : string) : string :=
  match s with
  | EmptyString => EmptyString
  | String c rest => String (lower_ascii c) (toLowerCase rest)
  end.

(** Own property of a parsed object; the last of several equal keys wins,
    as in [JSON.parse]. *)
Fixpoint get_field (k : string) (fields : list (string * JSON))
  : option JSON :=
  match fields with
  | [] => None
  | (k', v) :: rest =>
      match get_field k rest with
      | Some v' => Some v'
      | None => if String.eqb k k' then Some v else None
      end
  end.

(** [const { key } = value]: destructuring null throws, an object yields
    the property or undefined, any other value yields undefined. *)
Definition destructure (key : string) (v : JSON) : M (option JSON) :=
  match v with
  | JNull => throw (TypeError "Cannot destructure property of null")
  | JObject fields => ret (get_field key fields)
  | _ => ret None
  end.

(** [value.toLowerCase()]: only strings have the method. *)
Definition call_toLowerCase (v : option JSON) : M string :=
  match v with
  | Some (JString s) => ret (toLowerCase s)
  | Some JNull | None =>
      throw (TypeError "Cannot read properties of undefined")
  | Some _ => throw (TypeError "toLowerCase is not a function")
  end.

(** ** Request context *)

Record Context := {
  param_id : string;
  req_body : option JSON;
  var_session : option Session }.

(** [c.req.json()]: an absent or unparsable body throws. *)
Definition req_json (c : Context) : M JSON :=
  let* _ := emit EvReqJson in
  match req_body c with
  | Some j => ret j
  | None => throw SyntaxError
  end.

Definition c_json (r : option Reservation) : M Response :=
  ret {| status := 200; headers := []; payload := PReservation r |}.

(** [sessionMiddleware]: resolve the session once and hand it to the
    next handler. *)
Definition sessionMiddleware {A} (c : Context) (next : Context -> M A) : M A :=
  let* session := auth in
  next {| param_id := param_id c; req_body := req_body c;
          var_session := session |}.

(** The session check shared by the handlers: [!session || !session.user]. *)
Definition session_user_of (s : option Session) : option User :=
  match s with
  | Some session => session_user session
  | None => None
  end.

(** ** Reservation routes *)

Definition generic_error : Exn :=
  HTTPException 500 "An error occurred while processing your request!".

(** Body of the [try] block of [GET /:id]. *)
Definition reservation_get_try (id : string) (user : User) : M Response :=
  let* reservation := Queries.getReservationById id in
  match reservation with
  | None => throw (TypeError "Cannot read properties of undefined")
  | Some r =>
      if strict_neq (res_userId r) (user_id user)
      then throw (HTTPException 401 "Unauthorized!")
      else c_json (Some r)
  end.

Definition reservation_get (c : Context) : M Response :=
  let id := param_id c in
  if negb (truthy id) then throw (HTTPException 404 "Not Found!") else
  match session_user_of (var_session c) with
  | None => throw (HTTPException 401 "Unauthorized!")
  | Some user =>
      try_catch (reservation_get_try id user) (fun _ => throw generic_error)
  end.

(** Body of the [try] block of [PATCH /:id]. *)
Definition reservation_patch_try (c : Context) (id : string) (user : User)
  : M Response :=
  let* reservation := Queries.getReservationById id in
  match reservation with
  | None => throw (HTTPException 404 "Reservation not found!")
  | Some r =>
      if strict_neq (res_userId r) (user_id user)
      then throw (HTTPException 401 "Unauthorized!")
      else if hasCompletedPayment r
      then throw (HTTPException 409 "Reservation is already paid!")
      else
        let* body := req_json c in
        let* magicWord := destructure "magicWord" body in
        let* lowered := call_toLowerCase magicWord in
        if negb (String.eqb lowered "vercel")
        then throw (HTTPException 400 "Invalid magic word!")
        else
          let* updatedReservation := Queries.updateReservation id true in
          c_json updatedReservation
  end.

Definition reservation_patch (c : Context) : M Response :=
  let id := param_id c in
  if negb (truthy id) then throw (HTTPException 404 "Not Found!") else
  match session_user_of (var_session c) with
  | None => throw (HTTPException 401 "Unauthorized!")
  | Some user =>
      try_catch (reservation_patch_try c id user)
                (fun _ => throw generic_error)
  end.

(** ** Chat routes *)

Record ChatInput := { input_id : string; input_messages : list Message }.

(** The request schema:
    [z.object({ id: z.string(), messages: z.array(z.object({
       role: z.enum(["user", "assistant"]), content: z.string() })) })].
    Objects keep the declared keys and drop the others. *)
Definition z_string (v : option JSON) : option string :=
  match v with
  | Some (JString s) => Some s
  | _ => None
  end.

Definition z_enum_role (v : option JSON) : option Role :=
  match v with
  | Some (JString s) =>
      if String.eqb s "user" then Some RoleUser
      else if String.eqb s "assistant" then Some RoleAssistant
      else None
  | _ => None
  end.

Definition z_message (v : JSON) : option Message :=
  match v with
  | JObject fields =>
      match z_enum_role (get_field "role" fields),
            z_string (get_field "content" fields) with
      | Some r, Some c => Some {| m_role := r; m_content := c |}
      | _, _ => None
      end
  | _ => None
  end.

Fixpoint z_array_messages (items : list JSON) : option (list Message) :=
  match items with
  | [] => Some []
  | v :: rest =>
      match z_message v, z_array_messages rest with
      | Some m, Some ms => Some (m :: ms)
      | _, _ => None
      end
  end.

Definition schema (v : JSON) : option ChatInput :=
  match v with
  | JObject fields =>
      match z_string (get_field "id" fields),
            get_field "messages" fields with
      | Some id, Some (JArray items) =>
          match z_array_messages items with
          | Some ms => Some {| input_id := id; input_messages := ms |}
          | None => None
          end
      | _, _ => None
      end
  | _ => None
  end.

(** [zValidator("json", schema)]: a body that cannot be read or does not
    parse against the schema is answered with 400 and the handler is not
    run. *)
Definition zValidator_json (c : Context) : M (Response + ChatInput) :=
  let* value :=
    try_catch (req_json c)
      (fun _ => throw (HTTPException 400 "Malformed JSON in request body")) in
  match schema value with
  | Some input => ret (inr input)
  | None =>
      ret (inl {| status := 400; headers := []; payload := PValidationError |})
  end.

(** [convertToCoreMessages] of the SDK, on messages that carry a role and
    a text only. *)
Definition convertToCoreMessages (ms : list Message) : list CoreMessage :=
  map (fun m =>
         {| role := match m_role m with
                    | RoleUser => CoreUser
                    | RoleAssistant => CoreAssistant
                    end;
            content := ContentText (m_content m) |}) ms.

Definition content_length (c : Content) : nat :=
  match c with
  | ContentText s => String.length s
  | ContentParts parts => length parts
  end.

(** [message.content.length > 0] *)
Definition has_content (m : CoreMessage) : bool :=
  Nat.ltb 0 (content_length (content m)).

(** The identifier selected by [user && user.id]. *)
Definition truthy_user_id (u : option User) : option string :=
  match u with
  | Some user =>
      match user_id user with
      | Some id => if truthy id then Some id else None
      | None => None
      end
  | None => None
  end.

(** [onFinish] of the [streamText] call, closed over the handler's
    [session], [id] and [coreMessages]. *)
Definition onFinish (session : Session) (id : string)
    (coreMessages responseMessages : list CoreMessage) : M unit :=
  match truthy_user_id (session_user session) with
  | Some userId =>
      try_catch
        (Queries.saveChat id (coreMessages ++ responseMessages) userId)
        (fun _ => emit (EvConsoleError "Failed to save chat"))
  | None => ret tt
  end.

(** What the handler hands to [streamText]: the messages and the
    completion callback. *)
Record StreamTextCall := {
  st_messages : list CoreMessage;
  st_onFinish : list CoreMessage -> M unit }.

Definition stream_response : Response :=
  {| status := 200;
     headers := [("XVercel-AI_Data_Stream", "v1");
                 ("Content-Type", "text/plain; charset=utf-8")];
     payload := PDataStream |}.

(** [POST /].  The awaited [streamText] call is taken to start the
    stream; the tool executors and [onFinish] it is given run later,
    while the stream is consumed. *)
Definition chat_post (input : ChatInput) (c : Context)
  : M (Response * StreamTextCall) :=
  let id := input_id input in
  let messages := input_messages input in
  match var_session c with
  | None => throw (HTTPException 401 "Unauthorized")
  | Some session =>
      let coreMessages :=
        List.filter has_content (convertToCoreMessages messages) in
      let* _ := emit (EvStreamText coreMessages) in
      ret (stream_response,
           {| st_messages := coreMessages;
              st_onFinish := onFinish session id coreMessages |})
  end.

(** [POST /] with its validator in front. *)
Definition chat_post_validated (c : Context)
  : M (Response * option StreamTextCall) :=
  let* v := zValidator_json c in
  match v with
  | inl rejected => ret (rejected, None)
  | inr input =>
      let* r := chat_post input c in
      ret (fst r, Some (snd r))
  end.

Definition chat_error : Exn :=
  HTTPException 500 "An error occurred while processing your request".

(** Body of the [try] block of [DELETE /:id]. *)
Definition chat_delete_try (id : string) (user : User) : M Response :=
  let* chat := Queries.getChatById id in
  match chat with
  | None => throw (TypeError "Cannot read properties of undefined")
  | Some ch =>
      if strict_neq (chat_userId ch) (user_id user)
      then throw (HTTPException 401 "Unauthorized")
      else
        let* _ := Queries.deleteChatById id in
        ret {| status := 200; headers := [];
               payload := PText "Chat deleted successfully" |}
  end.

Definition chat_delete (c : Context) : M Response :=
  let id := param_id c in
  if negb (truthy id) then throw (HTTPException 404 "Not Found") else
  match session_user_of (var_session c) with
  | None => throw (HTTPException 401 "Unauthorized")
  | Some user =>
      try_catch (chat_delete_try id user)
        (fun _ =>
           let* _ := emit (EvConsoleError "Error deleting chat:") in
           throw chat_error)
  end.

(** ** Tool executors of the chat route *)

Module Tools.

Inductive CreateReservationResult :=
| Created (id : string) (p : Props) (totalPriceInUSD : Z)
| NotSignedIn (error : string).

Definition createReservation_execute (p : Props)
  : M CreateReservationResult :=
  let* totalPriceInUSD := generateReservationPrice p in
  let* session := auth in
  let* id := generateUUID in
  match truthy_user_id (session_user_of session) with
  | Some userId =>
      let* _ :=
        Queries.createReservation id userId
          {| props := p; totalPriceInUSD := totalPriceInUSD |} in
      ret (Created id p totalPriceInUSD)
  | None =>
      ret (NotSignedIn "User is not signed in to perform this action!")
  end.

Definition authorizePayment_execute (reservationId : string) : M string :=
  ret reservationId.

(** Returns the [hasCompletedPayment] field of its result object. *)
Definition verifyPayment_execute (reservationId : string) : M bool :=
  let* reservation := Queries.getReservationById reservationId in
  match reservation with
  | None => throw (TypeError "Cannot read properties of undefined")
  | Some r => if hasCompletedPayment r then ret true else ret false
  end.

End Tools.

(** ** History route *)

Definition history_get (c : Context) : M Response :=
  match session_user_of (var_session c) with
  | None => throw (HTTPException 401 "Unauthorized")
  | Some _ => ret {| status := 200; headers := []; payload := PDummyChats |}
  end.

(** ** What the caller sees *)

(** The framework turns a thrown [HTTPException] into a response with its
    status, and any other exception into a 500. *)
Definition respond (r : Result Response) : Response :=
  match r with
  | Ok resp => resp
  | Throw (HTTPException st msg) =>
      {| status := st; headers := []; payload := PText msg |}
  | Throw _ =>
      {| status := 500; headers := []; payload := PText "Internal Server Error" |}
  end.

Definition result_map {A B} (f : A -> B) (r : Result A) : Result B :=
  match r with
  | Ok a => Ok (f a)
  | Throw e => Throw e
  end.

Definition http_status (r : Result Response) : Z := status (respond r).


(** ** Sample data for concrete runs *)

Module Scenario.

Definition alice : User := {| user_id := Some "A" |}.
Definition bob : User := {| user_id := Some "B" |}.
Definition anonymous : Session := {| session_user := None |}.
Definition signed (u : User) : option Session :=
  Some {| session_user := Some u |}.

Definition jfk : Endpoint :=
  {| cityName := "New York"; airportCode := "JFK";
     timestamp := "2024-06-01T08:00:00Z"; gate := "A1"; terminal := "4" |}.
Definition lhr : Endpoint :=
  {| cityName := "London"; airportCode := "LHR";
     timestamp := "2024-06-01T20:00:00Z"; gate := "B2"; terminal := "5" |}.
Definition booking : Props :=
  {| seats := ["12A"]; flightNumber := "BA142";
     departure := jfk; arrival := lhr; passengerName := "Ada" |}.

(** Reservation [r1] of user A. *)
Definition r1 (paid : bool) : Reservation :=
  {| res_id := "r1"; res_userId := "A"; hasCompletedPayment := paid;
     details := {| props := booking; totalPriceInUSD := 850 |} |}.

(** Chat [c1] of user A. *)
Definition c1 : Chat :=
  {| chat_id := "c1"; chat_userId := "A";
     chat_messages := [{| role := CoreUser; content := ContentText "hi" |}] |}.

(** Collaborators that accept every database call; [auth()] resolves to
    the given session. *)
Definition quiet (s : option Session) : Env :=
  {| db_rejects := fun _ => false; auth_result := fun _ => s;
     uuid_at := fun _ => "uuid-0"; reservationPrice := fun _ => 850 |}.

(** Collaborators whose [saveChat] rejects. *)
Definition save_fails : Env :=
  {| db_rejects := fun call =>
       match call with CallSaveChat _ _ _ => true | _ => false end;
     auth_result := fun _ => signed alice;
     uuid_at := fun _ => "uuid-0"; reservationPrice := fun _ => 850 |}.

Definition world (e : Env) (paid : bool) : World :=
  {| env := e;
     db := {| reservations := {[ "r1" := r1 paid ]};
              chats := {[ "c1" := c1 ]} |};
     auth_calls := 0; uuid_calls := 0; trace := [] |}.

Definition ctx (id : string) (b : option JSON) (s : option Session)
  : Context :=
  {| param_id := id; req_body := b; var_session := s |}.

Definition magic (word : string) : option JSON :=
  Some (JObject [("magicWord", JString word)]).

Definition text_message (r content : string) : JSON :=
  JObject [("role", JString r); ("content", JString content)].

Definition chat_body (messages : list JSON) : JSON :=
  JObject [("id", JString "c2"); ("messages", JArray messages)].

End Scenario.

(** ** Words of the spec, as predicates on request bodies *)

(** The string carried under [magicWord], when the body is an object that
    has one. *)
Definition string_magicWord (body : JSON) : option string :=
  match body with
  | JObject fields =>
      match get_field "magicWord" fields with
      | Some (JString s) => Some s
      | _ => None
      end
  | _ => None
  end.

Definition is_role (s : string) : bool :=
  (String.eqb s "user" || String.eqb s "assistant")%bool.

(** A message of the request body: an object with a role in
    {user, assistant} and a text for which [text_ok] holds. *)
Definition message_shape (text_ok : string -> bool) (v : JSON) : bool :=
  match v with
  | JObject fields =>
      match get_field "role" fields, get_field "content" fields with
      | Some (JString r), Some (JString t) => (is_role r && text_ok t)%bool
      | _, _ => false
      end
  | _ => false
  end.

(** A request body: an object with a string identifier and a list of
    messages. *)
Definition body_shape (text_ok : string -> bool) (v : JSON) : bool :=
  match v with
  | JObject fields =>
      match get_field "id" fields, get_field "messages" fields with
      | Some (JString _), Some (JArray items) =>
          forallb (message_shape text_ok) items
      | _, _ => false
      end
  | _ => false
  end.

(** The spec's reading: every message has a non-empty text. *)
Definition spec_well_formed : JSON -> bool := body_shape truthy.

(** The schema's reading: every message has a text, possibly empty. *)
Definition schema_well_formed : JSON -> bool := body_shape (fun _ => true).


(** [session && session.user && session.user.id], spelled out. *)
Definition signed_in_as (s : option Session) (userId : string) : Prop :=
  exists session user,
    s = Some session /\ session_user session = Some user /\
    user_id user = Some userId /\ userId <> "".

(** ** The chat POST route as mounted *)

(** [.use("/", sessionMiddleware).post("/", zValidator("json", schema), ...)]:
    the session is resolved first, then the body is validated, then the
    handler runs. *)
Definition chat_post_route (c : Context)
  : M (Response * option StreamTextCall) :=
  sessionMiddleware c chat_post_validated.

(** [GET /] of the history routes behind its session middleware. *)
Definition history_route (c : Context) : M Response :=
  sessionMiddleware c history_get.

(** ** Request bodies as a client writes them *)

Definition role_name (r : Role) : string :=
  match r with
  | RoleUser => "user"
  | RoleAssistant => "assistant"
  end.

Definition message_json (m : Message) : JSON :=
  JObject [("role", JString (role_name (m_role m)));
           ("content", JString (m_content m))].

Definition input_json (input : ChatInput) : JSON :=
  JObject [("id", JString (input_id input));
           ("messages", JArray (map message_json (input_messages input)))].

(** [message.content.length > 0] on a message of the request body. *)
Definition has_text (m : Message) : bool := truthy (m_content m).

(** * Properties *)

(** ** Running the accessors *)

Lemma db_of_log_event e w : db (log_event e w) = db w.
Proof. reflexivity. Qed.

Lemma env_of_log_event e w : env (log_event e w) = env w.
Proof. reflexivity. Qed.

Lemma trace_of_log_event e w : trace (log_event e w) = (trace w ++ [e])%list.
Proof. reflexivity. Qed.

Lemma getReservationById_run id w :
  Queries.getReservationById id w =
  let w' := log_event (EvDb (CallGetReservationById id)) w in
  if db_rejects (env w) (CallGetReservationById id)
  then (Throw DbError, w')
  else (Ok (reservations (db w) !! id), w').
Proof.
  unfold Queries.getReservationById, Queries.db_call, Queries.read_db, bind, ret.
  destruct (db_rejects _ _); reflexivity.
Qed.

Lemma getChatById_run id w :
  Queries.getChatById id w =
  let w' := log_event (EvDb (CallGetChatById id)) w in
  if db_rejects (env w) (CallGetChatById id)
  then (Throw DbError, w')
  else (Ok (chats (db w) !! id), w').
Proof.
  unfold Queries.getChatById, Queries.db_call, Queries.read_db, bind, ret.
  destruct (db_rejects _ _); reflexivity.
Qed.

Lemma updateReservation_run id paid w :
  Queries.updateReservation id paid w =
  let w' := log_event (EvDb (CallUpdateReservation id paid)) w in
  if db_rejects (env w) (CallUpdateReservation id paid)
  then (Throw DbError, w')
  else
    let rs := alter (Queries.with_payment paid) id (reservations (db w)) in
    (Ok (rs !! id),
     set_db {| reservations := rs; chats := chats (db w) |} w').
Proof.
  unfold Queries.updateReservation, Queries.db_call, Queries.read_db,
    Queries.write_db, bind, ret.
  destruct (db_rejects _ _); reflexivity.
Qed.

Lemma saveChat_run id messages userId w :
  Queries.saveChat id messages userId w =
  let w' := log_event (EvDb (CallSaveChat id messages userId)) w in
  if db_rejects (env w) (CallSaveChat id messages userId)
  then (Throw DbError, w')
  else
    (Ok tt,
     set_db {| reservations := reservations (db w);
               chats := <[id := {| chat_id := id; chat_userId := userId;
                                   chat_messages := messages |}]>
                          (chats (db w)) |} w').
Proof.
  unfold Queries.saveChat, Queries.db_call, Queries.read_db,
    Queries.write_db, bind, ret.
  destruct (db_rejects _ _); reflexivity.
Qed.

Lemma createReservation_run id userId dt w :
  Queries.createReservation id userId dt w =
  let w' := log_event (EvDb (CallCreateReservation id userId dt)) w in
  if db_rejects (env w) (CallCreateReservation id userId dt)
  then (Throw DbError, w')
  else
    (Ok tt,
     set_db {| reservations :=
                 <[id := {| res_id := id; res_userId := userId;
                            hasCompletedPayment := false; details := dt |}]>
                   (reservations (db w));
               chats := chats (db w) |} w').
Proof.
  unfold Queries.createReservation, Queries.db_call, Queries.read_db,
    Queries.write_db, bind, ret.
  destruct (db_rejects _ _); reflexivity.
Qed.

(** ** JavaScript helpers *)

Lemma truthy_user_id_signed_in (s : option Session) (userId : string) :
  truthy_user_id (session_user_of s) = Some userId <-> signed_in_as s userId.
Proof.
  unfold signed_in_as, truthy_user_id, session_user_of, truthy. split.
  - destruct s as [session|]; [|discriminate].
    destruct (session_user session) as [user|] eqn:Hu; [|discriminate].
    destruct (user_id user) as [id|] eqn:Hid; [|discriminate].
    destruct (String.eqb id "") eqn:He; simpl; [discriminate|].
    intros [= <-]. exists session, user. repeat split; auto.
    intros ->. discriminate.
  - intros (session & user & -> & -> & -> & Hne).
    destruct (String.eqb_spec userId ""); [contradiction|reflexivity].
Qed.

Lemma truthy_user_id_none (s : option Session) :
  truthy_user_id (session_user_of s) = None <->
  forall userId, ~ signed_in_as s userId.
Proof.
  split.
  - intros Hn userId Hs. apply truthy_user_id_signed_in in Hs. congruence.
  - intros Hn. destruct (truthy_user_id (session_user_of s)) as [u|] eqn:E; auto.
    apply truthy_user_id_signed_in in E. destruct (Hn _ E).
Qed.

(** The confirmation word, whatever its letter case. *)
Lemma confirmation_word_spellings :
  toLowerCase "VERCEL" = "vercel" /\ toLowerCase "vercel" = "vercel" /\
  toLowerCase "Vercel" = "vercel" /\ toLowerCase "vErCeL" = "vercel".
Proof. repeat split. Qed.

Ltac by_ascii_cases c :=
  destruct c as [[] [] [] [] [] [] [] []]; vm_compute; intros H;
  try discriminate H; auto.

Lemma lower_is_v (a : ascii) :
  lower_ascii a = "v"%char -> a = "v"%char \/ a = "V"%char.
Proof. by_ascii_cases a. Qed.

Lemma lower_is_e (a : ascii) :
  lower_ascii a = "e"%char -> a = "e"%char \/ a = "E"%char.
Proof. by_ascii_cases a. Qed.

Lemma lower_is_r (a : ascii) :
  lower_ascii a = "r"%char -> a = "r"%char \/ a = "R"%char.
Proof. by_ascii_cases a. Qed.

Lemma lower_is_c (a : ascii) :
  lower_ascii a = "c"%char -> a = "c"%char \/ a = "C"%char.
Proof. by_ascii_cases a. Qed.

Lemma lower_is_l (a : ascii) :
  lower_ascii a = "l"%char -> a = "l"%char \/ a = "L"%char.
Proof. by_ascii_cases a. Qed.


(** ** Reservation PATCH, step by step *)

Section Patch.

Variables (c : Context) (user : User) (w : World).

Let id := param_id c.
Let fetched := log_event (EvDb (CallGetReservationById id)) w.

Hypothesis fetch_ok : db_rejects (env w) (CallGetReservationById id) = false.

Lemma patch_try_missing :
  reservations (db w) !! id = None ->
  reservation_patch_try c id user w =
  (Throw (HTTPException 404 "Reservation not found!"), fetched).
Proof.
  intros Hm. unfold reservation_patch_try, bind.
  rewrite getReservationById_run, fetch_ok. cbn. rewrite Hm. reflexivity.
Qed.

Lemma patch_try_foreign r :
  reservations (db w) !! id = Some r ->
  strict_neq (res_userId r) (user_id user) = true ->
  reservation_patch_try c id user w =
  (Throw (HTTPException 401 "Unauthorized!"), fetched).
Proof.
  intros Hr Hf. unfold reservation_patch_try, bind.
  rewrite getReservationById_run, fetch_ok. cbn. rewrite Hr, Hf. reflexivity.
Qed.

Lemma patch_try_paid r :
  reservations (db w) !! id = Some r ->
  strict_neq (res_userId r) (user_id user) = false ->
  hasCompletedPayment r = true ->
  reservation_patch_try c id user w =
  (Throw (HTTPException 409 "Reservation is already paid!"), fetched).
Proof.
  intros Hr Hf Hp. unfold reservation_patch_try, bind.
  rewrite getReservationById_run, fetch_ok. cbn. rewrite Hr, Hf, Hp.
  reflexivity.
Qed.

(** Past the three checks on the stored row, the body is read. *)
Let body_read := log_event EvReqJson fetched.

Section Unpaid.

Variable r : Reservation.
Hypothesis stored : reservations (db w) !! id = Some r.
Hypothesis owned : strict_neq (res_userId r) (user_id user) = false.
Hypothesis unpaid : hasCompletedPayment r = false.

Lemma patch_try_unreadable :
  req_body c = None ->
  reservation_patch_try c id user w = (Throw SyntaxError, body_read).
Proof.
  intros Hb. unfold reservation_patch_try, bind.
  rewrite getReservationById_run, fetch_ok. cbn. rewrite stored, owned, unpaid.
  unfold req_json, bind, emit. rewrite Hb. reflexivity.
Qed.

Lemma patch_try_no_string body :
  req_body c = Some body ->
  string_magicWord body = None ->
  exists message,
    reservation_patch_try c id user w = (Throw (TypeError message), body_read).
Proof.
  intros Hb Hs. unfold reservation_patch_try, bind.
  rewrite getReservationById_run, fetch_ok. cbn. rewrite stored, owned, unpaid.
  unfold req_json, bind, emit. rewrite Hb. cbn.
  destruct body as [| | | |items|fields]; cbn; eauto.
  cbn in Hs. destruct (get_field "magicWord" fields) as [[]|]; cbn; eauto.
  discriminate.
Qed.

Lemma patch_try_wrong_word body s :
  req_body c = Some body ->
  string_magicWord body = Some s ->
  toLowerCase s <> "vercel" ->
  reservation_patch_try c id user w =
  (Throw (HTTPException 400 "Invalid magic word!"), body_read).
Proof.
  intros Hb Hs Hne. unfold reservation_patch_try, bind.
  rewrite getReservationById_run, fetch_ok. cbn. rewrite stored, owned, unpaid.
  unfold req_json, bind, emit. rewrite Hb. cbn.
  destruct body as [| | | |items|fields]; try discriminate. cbn in *.
  destruct (get_field "magicWord" fields) as [[]|]; try discriminate.
  injection Hs as ->. cbn.
  destruct (String.eqb_spec (toLowerCase s) "vercel"); [contradiction|].
  reflexivity.
Qed.

Lemma patch_try_right_word body s :
  req_body c = Some body ->
  string_magicWord body = Some s ->
  toLowerCase s = "vercel" ->
  db_rejects (env w) (CallUpdateReservation id true) = false ->
  reservation_patch_try c id user w =
  (Ok {| status := 200; headers := [];
         payload := PReservation (Some (Queries.with_payment true r)) |},
   set_db {| reservations := <[id := Queries.with_payment true r]>
                               (reservations (db w));
             chats := chats (db w) |}
          (log_event (EvDb (CallUpdateReservation id true)) body_read)).
Proof.
  intros Hb Hs He Hu. unfold reservation_patch_try, bind.
  rewrite getReservationById_run, fetch_ok. cbn. rewrite stored, owned, unpaid.
  unfold req_json, bind, emit. rewrite Hb. cbn.
  destruct body as [| | | |items|fields]; try discriminate. cbn in *.
  destruct (get_field "magicWord" fields) as [[]|]; try discriminate.
  injection Hs as ->. cbn. rewrite He. cbn.
  rewrite updateReservation_run. cbn. rewrite Hu.
  assert (Ha : alter (Queries.with_payment true) id (reservations (db w))
               = <[id := Queries.with_payment true r]> (reservations (db w))).
  { apply map_eq. intros k. rewrite lookup_alter, lookup_insert.
    destruct (decide (id = k)) as [<-|]; [rewrite stored|]; reflexivity. }
  rewrite Ha, lookup_insert_eq. reflexivity.
Qed.

End Unpaid.

End Patch.

(** The [catch] clause of the PATCH handler replaces whatever the [try]
    block threw. *)
Lemma reservation_patch_guarded (c : Context) (user : User) (w : World) :
  truthy (param_id c) = true ->
  session_user_of (var_session c) = Some user ->
  reservation_patch c w =
  match reservation_patch_try c (param_id c) user w with
  | (Ok resp, w') => (Ok resp, w')
  | (Throw _, w') => (Throw generic_error, w')
  end.
Proof.
  intros Hid Hs. unfold reservation_patch. rewrite Hid, Hs. cbn.
  unfold try_catch. destruct (reservation_patch_try _ _ _ _) as [[resp|e] w'];
    reflexivity.
Qed.


(** ** Reservation PATCH: the claims *)

(** C2 (as the code runs): for a signed-in owner and a stored reservation
    whose payment is complete, the [try] block throws 409, the [catch]
    clause around it turns that into the generic 500, and the stored rows
    are left as they were, whatever the request body holds. *)
Theorem C2_paid_patch_answers_500 (c : Context) (user : User)
    (r : Reservation) (w : World) :
  truthy (param_id c) = true ->
  session_user_of (var_session c) = Some user ->
  db_rejects (env w) (CallGetReservationById (param_id c)) = false ->
  reservations (db w) !! param_id c = Some r ->
  strict_neq (res_userId r) (user_id user) = false ->
  hasCompletedPayment r = true ->
  fst (reservation_patch_try c (param_id c) user w) =
    Throw (HTTPException 409 "Reservation is already paid!") /\
  http_status (fst (reservation_patch c w)) = 500 /\
  db (snd (reservation_patch c w)) = db w.
Proof.
  intros Hid Hs Hf Hr Ho Hp.
  rewrite (reservation_patch_guarded c user w Hid Hs).
  rewrite (patch_try_paid c user w Hf r Hr Ho Hp). repeat split.
Qed.

Lemma C2_paid_patch_answers_500_witness :
  http_status
    (fst (reservation_patch
            (Scenario.ctx "r1" (Scenario.magic "vercel")
               (Scenario.signed Scenario.alice))
            (Scenario.world (Scenario.quiet None) true))) = 500.
Proof.
  apply (C2_paid_patch_answers_500
           (Scenario.ctx "r1" (Scenario.magic "vercel")
              (Scenario.signed Scenario.alice))
           Scenario.alice (Scenario.r1 true)
           (Scenario.world (Scenario.quiet None) true));
    vm_compute; reflexivity.
Defined.

(** C3 (as the code runs): with the reservation stored, owned and unpaid,
    a body whose [magicWord] is a string passes exactly when its lower
    case is "vercel": then the flag is set and the updated reservation
    returned with 200.  For every other string the [try] block throws
    400, which the [catch] clause turns into the generic 500; the stored
    rows are left as they were. *)
Theorem C3_confirmation_word (c : Context) (user : User) (r : Reservation)
    (w : World) (body : JSON) (s : string) :
  truthy (param_id c) = true ->
  session_user_of (var_session c) = Some user ->
  db_rejects (env w) (CallGetReservationById (param_id c)) = false ->
  db_rejects (env w) (CallUpdateReservation (param_id c) true) = false ->
  reservations (db w) !! param_id c = Some r ->
  strict_neq (res_userId r) (user_id user) = false ->
  hasCompletedPayment r = false ->
  req_body c = Some body ->
  string_magicWord body = Some s ->
  if String.eqb (toLowerCase s) "vercel"
  then
    fst (reservation_patch c w) =
      Ok {| status := 200; headers := [];
            payload := PReservation (Some (Queries.with_payment true r)) |} /\
    reservations (db (snd (reservation_patch c w))) !! param_id c =
      Some (Queries.with_payment true r)
  else
    fst (reservation_patch_try c (param_id c) user w) =
      Throw (HTTPException 400 "Invalid magic word!") /\
    http_status (fst (reservation_patch c w)) = 500 /\
    db (snd (reservation_patch c w)) = db w.
Proof.
  intros Hid Hs Hf Hu Hr Ho Hp Hb Hw.
  rewrite (reservation_patch_guarded c user w Hid Hs).
  destruct (String.eqb_spec (toLowerCase s) "vercel") as [He|Hne].
  - rewrite (patch_try_right_word c user w Hf r Hr Ho Hp body s Hb Hw He Hu).
    cbn. split; [reflexivity|]. apply lookup_insert_eq.
  - rewrite (patch_try_wrong_word c user w Hf r Hr Ho Hp body s Hb Hw Hne).
    repeat split.
Qed.

Lemma C3_confirmation_word_witness :
  http_status
    (fst (reservation_patch
            (Scenario.ctx "r1" (Scenario.magic "hunter2")
               (Scenario.signed Scenario.alice))
            (Scenario.world (Scenario.quiet None) false))) = 500.
Proof.
  apply (C3_confirmation_word
           (Scenario.ctx "r1" (Scenario.magic "hunter2")
              (Scenario.signed Scenario.alice))
           Scenario.alice (Scenario.r1 false)
           (Scenario.world (Scenario.quiet None) false)
           (JObject [("magicWord", JString "hunter2")]) "hunter2");
    vm_compute; reflexivity.
Defined.




(** C9: with the reservation stored, owned and unpaid, a JSON body that
    carries no string under [magicWord] (no such key, a value that is not
    a string, or a body that is not an object) makes the [try] block
    throw a type error, so the handler answers with the generic 500, not
    400, and the stored rows, the payment flag among them, are left as
    they were. *)
Theorem C9_no_string_magic_word_is_500 (c : Context) (user : User)
    (r : Reservation) (w : World) (body : JSON) :
  truthy (param_id c) = true ->
  session_user_of (var_session c) = Some user ->
  db_rejects (env w) (CallGetReservationById (param_id c)) = false ->
  reservations (db w) !! param_id c = Some r ->
  strict_neq (res_userId r) (user_id user) = false ->
  hasCompletedPayment r = false ->
  req_body c = Some body ->
  string_magicWord body = None ->
  fst (reservation_patch c w) = Throw generic_error /\
  http_status (fst (reservation_patch c w)) = 500 /\
  db (snd (reservation_patch c w)) = db w /\
  reservations (db (snd (reservation_patch c w))) !! param_id c = Some r.
Proof.
  intros Hid Hs Hf Hr Ho Hp Hb Hw.
  rewrite (reservation_patch_guarded c user w Hid Hs).
  destruct (patch_try_no_string c user w Hf r Hr Ho Hp body Hb Hw)
    as [message ->].
  cbn. repeat split. exact Hr.
Qed.

Lemma C9_no_string_magic_word_is_500_witness :
  http_status
    (fst (reservation_patch
            (Scenario.ctx "r1" (Some (JObject [("magicWord", JNumber 7)]))
               (Scenario.signed Scenario.alice))
            (Scenario.world (Scenario.quiet None) false))) = 500.
Proof.
  apply (C9_no_string_magic_word_is_500
           (Scenario.ctx "r1" (Some (JObject [("magicWord", JNumber 7)]))
              (Scenario.signed Scenario.alice))
           Scenario.alice (Scenario.r1 false)
           (Scenario.world (Scenario.quiet None) false)
           (JObject [("magicWord", JNumber 7)]));
    vm_compute; reflexivity.
Defined.

(** ** Ownership *)

Lemma reservation_get_guarded (c : Context) (user : User) (w : World) :
  truthy (param_id c) = true ->
  session_user_of (var_session c) = Some user ->
  reservation_get c w =
  match reservation_get_try (param_id c) user w with
  | (Ok resp, w') => (Ok resp, w')
  | (Throw _, w') => (Throw generic_error, w')
  end.
Proof.
  intros Hid Hs. unfold reservation_get. rewrite Hid, Hs. cbn.
  unfold try_catch. destruct (reservation_get_try _ _ _) as [[resp|e] w'];
    reflexivity.
Qed.

Lemma reservation_get_try_run (id : string) (user : User) (w : World)
    (r : Reservation) :
  db_rejects (env w) (CallGetReservationById id) = false ->
  reservations (db w) !! id = Some r ->
  reservation_get_try id user w =
  (if strict_neq (res_userId r) (user_id user)
   then Throw (HTTPException 401 "Unauthorized!")
   else Ok {| status := 200; headers := []; payload := PReservation (Some r) |},
   log_event (EvDb (CallGetReservationById id)) w).
Proof.
  intros Hf Hr. unfold reservation_get_try, bind.
  rewrite getReservationById_run, Hf. cbn. rewrite Hr.
  destruct (strict_neq _ _); reflexivity.
Qed.

Lemma chat_delete_guarded (c : Context) (user : User) (w : World) :
  truthy (param_id c) = true ->
  session_user_of (var_session c) = Some user ->
  chat_delete c w =
  match chat_delete_try (param_id c) user w with
  | (Ok resp, w') => (Ok resp, w')
  | (Throw _, w') =>
      (Throw chat_error, log_event (EvConsoleError "Error deleting chat:") w')
  end.
Proof.
  intros Hid Hs. unfold chat_delete. rewrite Hid, Hs. cbn.
  unfold try_catch. destruct (chat_delete_try _ _ _) as [[resp|e] w'];
    reflexivity.
Qed.

Lemma chat_delete_try_foreign (id : string) (user : User) (w : World)
    (ch : Chat) :
  db_rejects (env w) (CallGetChatById id) = false ->
  chats (db w) !! id = Some ch ->
  strict_neq (chat_userId ch) (user_id user) = true ->
  chat_delete_try id user w =
  (Throw (HTTPException 401 "Unauthorized"),
   log_event (EvDb (CallGetChatById id)) w).
Proof.
  intros Hf Hc Ho. unfold chat_delete_try, bind.
  rewrite getChatById_run, Hf. cbn. rewrite Hc, Ho. reflexivity.
Qed.

(** The [verifyPayment] tool reads the stored flag of whatever
    reservation it is asked about; no session takes part in its run. *)
Lemma verifyPayment_run (reservationId : string) (w : World)
    (r : Reservation) :
  db_rejects (env w) (CallGetReservationById reservationId) = false ->
  reservations (db w) !! reservationId = Some r ->
  Tools.verifyPayment_execute reservationId w =
  (Ok (hasCompletedPayment r),
   log_event (EvDb (CallGetReservationById reservationId)) w).
Proof.
  intros Hf Hr. unfold Tools.verifyPayment_execute, bind.
  rewrite getReservationById_run, Hf. cbn. rewrite Hr.
  destruct (hasCompletedPayment r); reflexivity.
Qed.

(** C1 (as the code runs): when the session user is not the owner, the
    ownership check of reservation GET, reservation PATCH and chat DELETE
    throws 401 inside the [try] block, and the surrounding [catch] clause
    answers with the generic 500 instead; nothing stored changes.  The
    [verifyPayment] tool makes no ownership check and returns the payment
    flag of the reservation to any caller. *)
Theorem C1_foreign_access (c : Context) (user : User) (w : World)
    (r : Reservation) :
  truthy (param_id c) = true ->
  session_user_of (var_session c) = Some user ->
  db_rejects (env w) (CallGetReservationById (param_id c)) = false ->
  reservations (db w) !! param_id c = Some r ->
  strict_neq (res_userId r) (user_id user) = true ->
  (fst (reservation_get_try (param_id c) user w) =
     Throw (HTTPException 401 "Unauthorized!") /\
   http_status (fst (reservation_get c w)) = 500 /\
   db (snd (reservation_get c w)) = db w) /\
  (http_status (fst (reservation_patch c w)) = 500 /\
   db (snd (reservation_patch c w)) = db w) /\
  (forall ch,
     db_rejects (env w) (CallGetChatById (param_id c)) = false ->
     chats (db w) !! param_id c = Some ch ->
     strict_neq (chat_userId ch) (user_id user) = true ->
     http_status (fst (chat_delete c w)) = 500 /\
     db (snd (chat_delete c w)) = db w) /\
  fst (Tools.verifyPayment_execute (param_id c) w) =
    Ok (hasCompletedPayment r).
Proof.
  intros Hid Hs Hf Hr Ho. repeat split.
  - rewrite (reservation_get_try_run _ user w r Hf Hr), Ho. reflexivity.
  - rewrite (reservation_get_guarded c user w Hid Hs),
      (reservation_get_try_run _ user w r Hf Hr), Ho. reflexivity.
  - rewrite (reservation_get_guarded c user w Hid Hs),
      (reservation_get_try_run _ user w r Hf Hr), Ho. reflexivity.
  - rewrite (reservation_patch_guarded c user w Hid Hs),
      (patch_try_foreign c user w Hf r Hr Ho). reflexivity.
  - rewrite (reservation_patch_guarded c user w Hid Hs),
      (patch_try_foreign c user w Hf r Hr Ho). reflexivity.
  - rewrite (chat_delete_guarded c user w Hid Hs),
      (chat_delete_try_foreign _ user w ch); auto.
  - rewrite (chat_delete_guarded c user w Hid Hs),
      (chat_delete_try_foreign _ user w ch); auto.
  - rewrite (verifyPayment_run _ w r Hf Hr). reflexivity.
Qed.

Lemma C1_foreign_access_witness :
  http_status
    (fst (reservation_get
            (Scenario.ctx "r1" None (Scenario.signed Scenario.bob))
            (Scenario.world (Scenario.quiet (Scenario.signed Scenario.bob))
               true))) = 500 /\
  fst (Tools.verifyPayment_execute "r1"
         (Scenario.world (Scenario.quiet (Scenario.signed Scenario.bob))
            true)) = Ok true.
Proof.
  pose proof (C1_foreign_access
           (Scenario.ctx "r1" None (Scenario.signed Scenario.bob))
           Scenario.bob
           (Scenario.world (Scenario.quiet (Scenario.signed Scenario.bob))
              true)
           (Scenario.r1 true)
           eq_refl eq_refl eq_refl eq_refl eq_refl) as H.
  split; apply H.
Defined.

(** ** Requests without a session user *)

(** C4 (counterexample): a chat POST whose session is present but carries
    no user is not answered with 401; it is answered with the stream. *)
Lemma C4_session_without_user_is_streamed :
  session_user_of (Some Scenario.anonymous) = None /\
  http_status
    (result_map fst
       (fst (chat_post_validated
               (Scenario.ctx ""
                  (Some (Scenario.chat_body
                           [Scenario.text_message "user" "hi"]))
                  (Some Scenario.anonymous))
               (Scenario.world (Scenario.quiet (Some Scenario.anonymous))
                  false)))) = 200.
Proof. split; reflexivity. Qed.

(** C4 (amended): a request whose session is null or carries no user is
    answered with 401 by chat DELETE, reservation GET and reservation
    PATCH (the path parameter being non-empty), and nothing at all is
    done to the world; chat POST does the same when the session itself
    is null, its validator having read and accepted the body first. *)
Theorem C4_no_session_user_is_401 (c : Context) (w : World) :
  session_user_of (var_session c) = None ->
  truthy (param_id c) = true ->
  chat_delete c w = (Throw (HTTPException 401 "Unauthorized"), w) /\
  reservation_get c w = (Throw (HTTPException 401 "Unauthorized!"), w) /\
  reservation_patch c w = (Throw (HTTPException 401 "Unauthorized!"), w) /\
  (var_session c = None ->
   forall input,
     chat_post input c w = (Throw (HTTPException 401 "Unauthorized"), w) /\
     forall body,
       req_body c = Some body ->
       schema body = Some input ->
       chat_post_validated c w =
         (Throw (HTTPException 401 "Unauthorized"), log_event EvReqJson w)).
Proof.
  intros Hs Hid. unfold chat_delete, reservation_get, reservation_patch.
  rewrite Hid, Hs. cbn.
  split; [reflexivity|]. split; [reflexivity|]. split; [reflexivity|].
  intros Hnull input. split.
  - unfold chat_post. rewrite Hnull. reflexivity.
  - intros body Hb Hin.
    unfold chat_post_validated, zValidator_json, bind, try_catch, req_json,
      bind, emit.
    rewrite Hb. cbn. rewrite Hin. unfold chat_post. rewrite Hnull.
    reflexivity.
Qed.

Lemma C4_no_session_user_is_401_witness :
  chat_delete (Scenario.ctx "c1" None None)
    (Scenario.world (Scenario.quiet None) false) =
  (Throw (HTTPException 401 "Unauthorized"),
   Scenario.world (Scenario.quiet None) false) /\
  chat_post {| input_id := "c2"; input_messages := [] |}
    (Scenario.ctx "c1" None None)
    (Scenario.world (Scenario.quiet None) false) =
  (Throw (HTTPException 401 "Unauthorized"),
   Scenario.world (Scenario.quiet None) false).
Proof.
  pose proof (C4_no_session_user_is_401
                (Scenario.ctx "c1" None None)
                (Scenario.world (Scenario.quiet None) false)
                eq_refl eq_refl) as (Hd & _ & _ & Hp).
  split; [exact Hd | exact (proj1 (Hp eq_refl _))].
Defined.

(** The history stub asks for a session user as well. *)
Lemma history_get_requires_user (c : Context) (w : World) :
  session_user_of (var_session c) = None ->
  history_get c w = (Throw (HTTPException 401 "Unauthorized"), w).
Proof. intros Hs. unfold history_get. rewrite Hs. reflexivity. Qed.

(** The session middleware resolves the session once and never throws
    by itself. *)
Lemma sessionMiddleware_run {A} (c : Context) (next : Context -> M A)
    (w : World) :
  sessionMiddleware c next w =
  next {| param_id := param_id c; req_body := req_body c;
          var_session := auth_result (env w) (auth_calls w) |}
       {| env := env w; db := db w; auth_calls := S (auth_calls w);
          uuid_calls := uuid_calls w;
          trace := (trace w ++ [EvAuth])%list |}.
Proof. reflexivity. Qed.

(** ** Chat POST: validation and filtering *)

Lemma z_message_accepts (v : JSON) :
  is_Some (z_message v) <-> message_shape (fun _ => true) v = true.
Proof.
  unfold z_message, message_shape, z_enum_role, z_string, is_role.
  destruct v as [| | | | |fields];
    try (split; [intros [? [=]] | discriminate]).
  destruct (get_field "role" fields) as [[| | |r| |]|];
    try (split; [intros [? [=]] | discriminate]).
  destruct (get_field "content" fields) as [[| | |t| |]|];
    destruct (String.eqb r "user"), (String.eqb r "assistant"); cbn;
    split; try discriminate; try (intros [? [=]]); eauto.
Qed.

Lemma z_array_messages_accepts (items : list JSON) :
  is_Some (z_array_messages items) <->
  forallb (message_shape (fun _ => true)) items = true.
Proof.
  induction items as [|v rest IH]; cbn.
  - split; eauto.
  - rewrite andb_true_iff, <- IH, <- z_message_accepts.
    destruct (z_message v), (z_array_messages rest); split;
      try (intros [? [=]]); try (intros [[? [=]] [? [=]]]); eauto.
Qed.

(** The schema accepts exactly the bodies of the declared shape. *)
Lemma schema_accepts (body : JSON) :
  is_Some (schema body) <-> schema_well_formed body = true.
Proof.
  unfold schema, schema_well_formed, body_shape, z_string.
  destruct body as [| | | | |fields];
    try (split; [intros [? [=]] | discriminate]).
  destruct (get_field "id" fields) as [[| | |id| |]|];
    try (split; [intros [? [=]] | discriminate]).
  destruct (get_field "messages" fields) as [[| | | |items|]|];
    try (split; [intros [? [=]] | discriminate]).
  rewrite <- z_array_messages_accepts.
  destruct (z_array_messages items); split; try (intros [? [=]]); eauto.
Qed.

Lemma filtered_messages_have_text (ms : list Message) :
  Forall (fun m => exists s, content m = ContentText s /\ s <> "")
         (List.filter has_content (convertToCoreMessages ms)).
Proof.
  induction ms as [|m rest IH]; cbn; [constructor|].
  unfold has_content at 1. cbn.
  destruct (m_content m) as [|a s] eqn:E; cbn; [exact IH|].
  constructor; [|exact IH]. cbn. eexists. split; [reflexivity|].
  discriminate.
Qed.

(** C6 (counterexample): a body whose only message has an empty text is
    malformed by the spec's reading, yet the validator accepts it. *)
Lemma C6_empty_text_is_accepted :
  spec_well_formed
    (Scenario.chat_body [Scenario.text_message "user" ""]) = false /\
  fst (zValidator_json
         (Scenario.ctx ""
            (Some (Scenario.chat_body [Scenario.text_message "user" ""]))
            (Scenario.signed Scenario.alice))
         (Scenario.world (Scenario.quiet None) false)) =
  Ok (inr {| input_id := "c2";
             input_messages :=
               [{| m_role := RoleUser; m_content := "" |}] |}).
Proof. split; reflexivity. Qed.

(** C6 (amended): the body of a chat POST is validated against a schema
    that asks for a string identifier and a list of messages, each with
    a role in {user, assistant} and a text that may be empty.  A body of
    any other shape is answered with 400 and the handler is not run: the
    only effect is the reading of the body.  For an accepted body the
    messages handed to the streaming call are those of the body, in
    order, without the ones whose text is empty. *)
Theorem C6_chat_post_validation (c : Context) (w : World) (body : JSON) :
  req_body c = Some body ->
  if schema_well_formed body
  then
    exists input,
      schema body = Some input /\
      zValidator_json c w = (Ok (inr input), log_event EvReqJson w) /\
      forall session,
        var_session c = Some session ->
        let kept :=
          List.filter has_content
            (convertToCoreMessages (input_messages input)) in
        chat_post_validated c w =
          (Ok (stream_response,
               Some {| st_messages := kept;
                       st_onFinish :=
                         onFinish session (input_id input) kept |}),
           log_event (EvStreamText kept) (log_event EvReqJson w)) /\
        Forall (fun m => exists s, content m = ContentText s /\ s <> "")
               kept
  else
    chat_post_validated c w =
      (Ok ({| status := 400; headers := []; payload := PValidationError |},
           None),
       log_event EvReqJson w).
Proof.
  intros Hb.
  assert (Hv : zValidator_json c w =
               match schema body with
               | Some input => (Ok (inr input), log_event EvReqJson w)
               | None =>
                   (Ok (inl {| status := 400; headers := [];
                               payload := PValidationError |}),
                    log_event EvReqJson w)
               end).
  { unfold zValidator_json, bind, try_catch, req_json, bind, emit.
    rewrite Hb. cbn. destruct (schema body); reflexivity. }
  destruct (schema_well_formed body) eqn:Hwf.
  - apply schema_accepts in Hwf as [input Hin].
    rewrite Hin in Hv. exists input. split; [exact Hin|].
    split; [exact Hv|]. intros session Hs kept. split.
    + unfold chat_post_validated, bind. rewrite Hv.
      unfold chat_post, bind. rewrite Hs. reflexivity.
    + apply filtered_messages_have_text.
  - destruct (schema body) as [input|] eqn:Hin.
    + assert (is_Some (schema body)) as Hsome by (rewrite Hin; eauto).
      apply schema_accepts in Hsome. congruence.
    + unfold chat_post_validated, bind. rewrite Hv. reflexivity.
Qed.

Lemma C6_chat_post_validation_witness :
  chat_post_validated
    (Scenario.ctx ""
       (Some (Scenario.chat_body [Scenario.text_message "robot" "hi"]))
       (Scenario.signed Scenario.alice))
    (Scenario.world (Scenario.quiet None) false) =
  (Ok ({| status := 400; headers := []; payload := PValidationError |}, None),
   log_event EvReqJson (Scenario.world (Scenario.quiet None) false)).
Proof.
  exact (C6_chat_post_validation
           (Scenario.ctx ""
              (Some (Scenario.chat_body [Scenario.text_message "robot" "hi"]))
              (Scenario.signed Scenario.alice))
           (Scenario.world (Scenario.quiet None) false)
           (Scenario.chat_body [Scenario.text_message "robot" "hi"])
           eq_refl).
Defined.

(** ** The [createReservation] tool *)

(** C7: the [createReservation] executor prices the booking, resolves
    the session anew and draws an identifier.  When the session carries
    a user with an id, and the database accepts the insert, a new unpaid
    reservation with the booking and its price is stored under that user
    id and returned with the price.  When it does not, the executor
    returns the "not signed in" value, throws nothing, calls no accessor
    and leaves the stored rows as they were. *)
Theorem C7_createReservation_needs_signed_in_user (p : Props) (w : World) :
  let session := auth_result (env w) (auth_calls w) in
  let id := uuid_at (env w) (uuid_calls w) in
  let price := reservationPrice (env w) p in
  let dt := {| props := p; totalPriceInUSD := price |} in
  let run := Tools.createReservation_execute p w in
  (forall userId,
     signed_in_as session userId ->
     db_rejects (env w) (CallCreateReservation id userId dt) = false ->
     fst run = Ok (Tools.Created id p price) /\
     reservations (db (snd run)) =
       <[id := {| res_id := id; res_userId := userId;
                  hasCompletedPayment := false; details := dt |}]>
         (reservations (db w)) /\
     chats (db (snd run)) = chats (db w)) /\
  ((forall userId, ~ signed_in_as session userId) ->
     fst run =
       Ok (Tools.NotSignedIn "User is not signed in to perform this action!") /\
     db (snd run) = db w /\
     trace (snd run) = (trace w ++ [EvPrice; EvAuth; EvGenerateUUID])%list).
Proof.
  intros session id price dt run. subst run.
  unfold Tools.createReservation_execute, bind, generateReservationPrice,
    auth, generateUUID. cbn. fold session id price dt. split.
  - intros userId Hs Hok. apply truthy_user_id_signed_in in Hs.
    rewrite Hs. unfold bind. rewrite createReservation_run. cbn.
    fold id price dt. rewrite Hok. cbn. repeat split.
  - intros Hn. apply truthy_user_id_none in Hn. rewrite Hn. cbn.
    repeat split. rewrite <- !app_assoc. reflexivity.
Qed.

Lemma C7_createReservation_needs_signed_in_user_witness :
  fst (Tools.createReservation_execute Scenario.booking
         (Scenario.world (Scenario.quiet (Scenario.signed Scenario.alice))
            false)) =
    Ok (Tools.Created "uuid-0" Scenario.booking 850) /\
  fst (Tools.createReservation_execute Scenario.booking
         (Scenario.world (Scenario.quiet (Some Scenario.anonymous)) false)) =
    Ok (Tools.NotSignedIn "User is not signed in to perform this action!").
Proof.
  split.
  - apply (C7_createReservation_needs_signed_in_user Scenario.booking
             (Scenario.world (Scenario.quiet (Scenario.signed Scenario.alice))
                false)) with (userId := "A").
    + apply truthy_user_id_signed_in. reflexivity.
    + reflexivity.
  - apply (C7_createReservation_needs_signed_in_user Scenario.booking
             (Scenario.world (Scenario.quiet (Some Scenario.anonymous))
                false)).
    apply truthy_user_id_none. reflexivity.
Defined.

(** ** Completion of the stream *)

Lemma onFinish_run (session : Session) (id : string)
    (coreMessages responseMessages : list CoreMessage) (w : World) :
  onFinish session id coreMessages responseMessages w =
  match truthy_user_id (session_user session) with
  | Some userId =>
      let history := (coreMessages ++ responseMessages)%list in
      let saved := log_event (EvDb (CallSaveChat id history userId)) w in
      if db_rejects (env w) (CallSaveChat id history userId)
      then (Ok tt, log_event (EvConsoleError "Failed to save chat") saved)
      else (Ok tt,
            set_db {| reservations := reservations (db w);
                      chats := <[id := {| chat_id := id;
                                          chat_userId := userId;
                                          chat_messages := history |}]>
                                 (chats (db w)) |} saved)
  | None => (Ok tt, w)
  end.
Proof.
  unfold onFinish. destruct (truthy_user_id _) as [userId|]; [|reflexivity].
  unfold try_catch. rewrite saveChat_run. cbn.
  destruct (db_rejects _ _); reflexivity.
Qed.

(** C8: the handler answers with the stream and registers a completion
    callback.  When the session carries a user with an id, the callback
    calls [saveChat] with the conversation id, the filtered input
    messages followed by the response messages, and that user id; a
    rejected save is logged and the callback still completes normally.
    When the session carries no such user, the callback does nothing.
    The response was fixed before the callback ran. *)
Theorem C8_history_saved_on_finish (input : ChatInput) (c : Context)
    (session : Session) (w : World) :
  var_session c = Some session ->
  let id := input_id input in
  let coreMessages :=
    List.filter has_content (convertToCoreMessages (input_messages input)) in
  exists call,
    fst (chat_post input c w) = Ok (stream_response, call) /\
    st_messages call = coreMessages /\
    forall (responseMessages : list CoreMessage) (w' : World),
      let history := (coreMessages ++ responseMessages)%list in
      (forall userId,
         signed_in_as (Some session) userId ->
         let saved := log_event (EvDb (CallSaveChat id history userId)) w' in
         st_onFinish call responseMessages w' =
         if db_rejects (env w') (CallSaveChat id history userId)
         then (Ok tt, log_event (EvConsoleError "Failed to save chat") saved)
         else (Ok tt,
               set_db {| reservations := reservations (db w');
                         chats := <[id := {| chat_id := id;
                                             chat_userId := userId;
                                             chat_messages := history |}]>
                                    (chats (db w')) |} saved)) /\
      ((forall userId, ~ signed_in_as (Some session) userId) ->
       st_onFinish call responseMessages w' = (Ok tt, w')).
Proof.
  intros Hs id coreMessages.
  exists {| st_messages := coreMessages;
            st_onFinish := onFinish session id coreMessages |}.
  split; [|split].
  - unfold chat_post, bind. rewrite Hs. reflexivity.
  - reflexivity.
  - intros responseMessages w' history. cbn. rewrite onFinish_run. split.
    + intros userId Hu. apply truthy_user_id_signed_in in Hu. cbn in Hu.
      rewrite Hu. reflexivity.
    + intros Hn. apply truthy_user_id_none in Hn. cbn in Hn.
      rewrite Hn. reflexivity.
Qed.

Lemma C8_history_saved_on_finish_witness :
  exists call,
    fst (chat_post
           {| input_id := "c2";
              input_messages := [{| m_role := RoleUser; m_content := "hi" |};
                                 {| m_role := RoleUser; m_content := "" |}] |}
           (Scenario.ctx "" None (Scenario.signed Scenario.alice))
           (Scenario.world (Scenario.quiet None) false)) =
      Ok (stream_response, call) /\
    st_messages call = [{| role := CoreUser; content := ContentText "hi" |}] /\
    st_onFinish call
      [{| role := CoreAssistant; content := ContentText "hello" |}]
      (Scenario.world Scenario.save_fails false) =
    (Ok tt,
     log_event (EvConsoleError "Failed to save chat")
       (log_event
          (EvDb (CallSaveChat "c2"
                   [{| role := CoreUser; content := ContentText "hi" |};
                    {| role := CoreAssistant;
                       content := ContentText "hello" |}] "A"))
          (Scenario.world Scenario.save_fails false))).
Proof.
  destruct (C8_history_saved_on_finish
              {| input_id := "c2";
                 input_messages :=
                   [{| m_role := RoleUser; m_content := "hi" |};
                    {| m_role := RoleUser; m_content := "" |}] |}
              (Scenario.ctx "" None (Scenario.signed Scenario.alice))
              {| session_user := Some Scenario.alice |}
              (Scenario.world (Scenario.quiet None) false) eq_refl)
    as (call & Hr & Hm & Hf).
  exists call. split; [exact Hr|]. split; [exact Hm|].
  apply (Hf [{| role := CoreAssistant; content := ContentText "hello" |}]
            (Scenario.world Scenario.save_fails false)).
  apply (truthy_user_id_signed_in (Scenario.signed Scenario.alice) "A").
  reflexivity.
Defined.

(** C10: a chat POST whose session is present but carries no user, or a
    user without an id, is not answered with 401: the handler starts the
    streaming call and answers with the stream, and the completion
    callback it registered saves nothing, whatever the response messages
    and the state of the world at completion. *)
Theorem C10_session_without_user_id (input : ChatInput) (c : Context)
    (session : Session) (w : World) :
  var_session c = Some session ->
  (forall userId, ~ signed_in_as (Some session) userId) ->
  let coreMessages :=
    List.filter has_content (convertToCoreMessages (input_messages input)) in
  exists call,
    chat_post input c w =
      (Ok (stream_response, call), log_event (EvStreamText coreMessages) w) /\
    http_status (result_map fst (fst (chat_post input c w))) = 200 /\
    forall (responseMessages : list CoreMessage) (w' : World),
      st_onFinish call responseMessages w' = (Ok tt, w').
Proof.
  intros Hs Hn coreMessages.
  exists {| st_messages := coreMessages;
            st_onFinish := onFinish session (input_id input) coreMessages |}.
  assert (Hrun : chat_post input c w =
                 (Ok (stream_response,
                      {| st_messages := coreMessages;
                         st_onFinish :=
                           onFinish session (input_id input) coreMessages |}),
                  log_event (EvStreamText coreMessages) w)).
  { unfold chat_post, bind. rewrite Hs. reflexivity. }
  split; [exact Hrun|]. split; [rewrite Hrun; reflexivity|].
  intros responseMessages w'. cbn. rewrite onFinish_run.
  apply truthy_user_id_none in Hn. cbn in Hn. rewrite Hn. reflexivity.
Qed.

Lemma C10_session_without_user_id_witness :
  http_status
    (result_map fst
       (fst (chat_post
               {| input_id := "c2";
                  input_messages :=
                    [{| m_role := RoleUser; m_content := "hi" |}] |}
               (Scenario.ctx "" None (Some Scenario.anonymous))
               (Scenario.world (Scenario.quiet None) false)))) = 200.
Proof.
  destruct (C10_session_without_user_id
              {| input_id := "c2";
                 input_messages :=
                   [{| m_role := RoleUser; m_content := "hi" |}] |}
              (Scenario.ctx "" None (Some Scenario.anonymous))
              Scenario.anonymous
              (Scenario.world (Scenario.quiet None) false) eq_refl)
    as (call & _ & Hst & _).
  - apply (truthy_user_id_none (Some Scenario.anonymous)). reflexivity.
  - exact Hst.
Defined.

(** ** The spec's end-to-end scenarios, run on the sample world *)

(** User A reads and pays her own reservation; the stored flag flips. *)
Example owner_reads_then_pays :
  fst (reservation_get
         (Scenario.ctx "r1" None (Scenario.signed Scenario.alice))
         (Scenario.world (Scenario.quiet None) false)) =
    Ok {| status := 200; headers := [];
          payload := PReservation (Some (Scenario.r1 false)) |} /\
  reservations
    (db (snd (reservation_patch
                (Scenario.ctx "r1" (Scenario.magic "Vercel")
                   (Scenario.signed Scenario.alice))
                (Scenario.world (Scenario.quiet None) false)))) !! "r1" =
    Some (Scenario.r1 true).
Proof. split; vm_compute; reflexivity. Qed.

(** User A deletes her own chat; an unauthenticated caller cannot. *)
Example owner_deletes_chat :
  (let '(res, w') :=
     chat_delete (Scenario.ctx "c1" None (Scenario.signed Scenario.alice))
       (Scenario.world (Scenario.quiet None) false) in
   (http_status res, chats (db w') !! "c1")) = (200, None) /\
  (let '(res, w') :=
     chat_delete (Scenario.ctx "c1" None None)
       (Scenario.world (Scenario.quiet None) false) in
   (http_status res, chats (db w') !! "c1")) = (401, Some Scenario.c1).
Proof. split; vm_compute; reflexivity. Qed.

(** * Further properties of the handlers *)

(** ** Outcomes of the reservation handlers *)

Lemma strict_neq_false (a : string) (b : option string) :
  strict_neq a b = false <-> b = Some a.
Proof.
  unfold strict_neq. destruct b as [s|]; [|split; discriminate].
  destruct (String.eqb_spec a s) as [->|Hne]; cbn; split; try discriminate;
    auto.
  intros [= ->]. contradiction.
Qed.

Lemma strict_neq_same (a : string) : strict_neq a (Some a) = false.
Proof. apply strict_neq_false. reflexivity. Qed.

(** Every run of reservation GET ends in one of four ways. *)
Lemma reservation_get_outcome (c : Context) (w : World) :
  reservation_get c w = (Throw (HTTPException 404 "Not Found!"), w) \/
  reservation_get c w = (Throw (HTTPException 401 "Unauthorized!"), w) \/
  reservation_get c w =
    (Throw generic_error,
     log_event (EvDb (CallGetReservationById (param_id c))) w) \/
  exists user r,
    truthy (param_id c) = true /\
    session_user_of (var_session c) = Some user /\
    reservations (db w) !! param_id c = Some r /\
    user_id user = Some (res_userId r) /\
    reservation_get c w =
      (Ok {| status := 200; headers := []; payload := PReservation (Some r) |},
       log_event (EvDb (CallGetReservationById (param_id c))) w).
Proof.
  destruct (truthy (param_id c)) eqn:Hid.
  2:{ left. unfold reservation_get. rewrite Hid. reflexivity. }
  destruct (session_user_of (var_session c)) as [user|] eqn:Hs.
  2:{ right; left. unfold reservation_get. rewrite Hid, Hs. reflexivity. }
  rewrite (reservation_get_guarded c user w Hid Hs).
  unfold reservation_get_try, bind. rewrite getReservationById_run. cbn.
  destruct (db_rejects (env w) (CallGetReservationById (param_id c)));
    [right; right; left; reflexivity|].
  destruct (reservations (db w) !! param_id c) as [r|] eqn:Hr;
    [|right; right; left; reflexivity].
  destruct (strict_neq (res_userId r) (user_id user)) eqn:Ho;
    [right; right; left; reflexivity|].
  right; right; right. exists user, r.
  apply strict_neq_false in Ho. repeat split; auto.
Qed.

Lemma patch_try_update_rejected (c : Context) (user : User) (w : World)
    (r : Reservation) (body : JSON) (s : string) :
  db_rejects (env w) (CallGetReservationById (param_id c)) = false ->
  reservations (db w) !! param_id c = Some r ->
  strict_neq (res_userId r) (user_id user) = false ->
  hasCompletedPayment r = false ->
  req_body c = Some body ->
  string_magicWord body = Some s ->
  toLowerCase s = "vercel" ->
  db_rejects (env w) (CallUpdateReservation (param_id c) true) = true ->
  reservation_patch_try c (param_id c) user w =
  (Throw DbError,
   log_event (EvDb (CallUpdateReservation (param_id c) true))
     (log_event EvReqJson
        (log_event (EvDb (CallGetReservationById (param_id c))) w))).
Proof.
  intros Hf Hr Ho Hp Hb Hs He Hu. unfold reservation_patch_try, bind.
  rewrite getReservationById_run, Hf. cbn. rewrite Hr, Ho, Hp.
  unfold req_json, bind, emit. rewrite Hb. cbn.
  destruct body as [| | | |items|fields]; try discriminate. cbn in *.
  destruct (get_field "magicWord" fields) as [[]|]; try discriminate.
  injection Hs as ->. cbn. rewrite He. cbn.
  rewrite updateReservation_run. cbn. rewrite Hu. reflexivity.
Qed.

(** Every run of reservation PATCH ends in one of four ways; the stored
    rows change in the last one only. *)
Lemma reservation_patch_outcome (c : Context) (w : World) :
  reservation_patch c w = (Throw (HTTPException 404 "Not Found!"), w) \/
  reservation_patch c w = (Throw (HTTPException 401 "Unauthorized!"), w) \/
  (fst (reservation_patch c w) = Throw generic_error /\
   db (snd (reservation_patch c w)) = db w) \/
  exists user r body s,
    truthy (param_id c) = true /\
    session_user_of (var_session c) = Some user /\
    reservations (db w) !! param_id c = Some r /\
    user_id user = Some (res_userId r) /\
    hasCompletedPayment r = false /\
    req_body c = Some body /\
    string_magicWord body = Some s /\
    toLowerCase s = "vercel" /\
    fst (reservation_patch c w) =
      Ok {| status := 200; headers := [];
            payload := PReservation (Some (Queries.with_payment true r)) |} /\
    db (snd (reservation_patch c w)) =
      {| reservations := <[param_id c := Queries.with_payment true r]>
                           (reservations (db w));
         chats := chats (db w) |}.
Proof.
  destruct (truthy (param_id c)) eqn:Hid.
  2:{ left. unfold reservation_patch. rewrite Hid. reflexivity. }
  destruct (session_user_of (var_session c)) as [user|] eqn:Hs.
  2:{ right; left. unfold reservation_patch. rewrite Hid, Hs. reflexivity. }
  right; right. rewrite (reservation_patch_guarded c user w Hid Hs).
  destruct (db_rejects (env w) (CallGetReservationById (param_id c))) eqn:Hf.
  { left. unfold reservation_patch_try, bind.
    rewrite getReservationById_run, Hf. split; reflexivity. }
  destruct (reservations (db w) !! param_id c) as [r|] eqn:Hr.
  2:{ left. rewrite (patch_try_missing c user w Hf Hr). split; reflexivity. }
  destruct (strict_neq (res_userId r) (user_id user)) eqn:Ho.
  { left. rewrite (patch_try_foreign c user w Hf r Hr Ho).
    split; reflexivity. }
  destruct (hasCompletedPayment r) eqn:Hp.
  { left. rewrite (patch_try_paid c user w Hf r Hr Ho Hp).
    split; reflexivity. }
  destruct (req_body c) as [body|] eqn:Hb.
  2:{ left. rewrite (patch_try_unreadable c user w Hf r Hr Ho Hp Hb).
      split; reflexivity. }
  destruct (string_magicWord body) as [s|] eqn:Hw.
  2:{ left. destruct (patch_try_no_string c user w Hf r Hr Ho Hp body Hb Hw)
        as [message ->]. split; reflexivity. }
  destruct (String.eqb_spec (toLowerCase s) "vercel") as [He|Hne].
  2:{ left. rewrite (patch_try_wrong_word c user w Hf r Hr Ho Hp body s Hb Hw Hne).
      split; reflexivity. }
  destruct (db_rejects (env w) (CallUpdateReservation (param_id c) true))
    eqn:Hu.
  { left.
    rewrite (patch_try_update_rejected c user w r body s Hf Hr Ho Hp Hb Hw He Hu).
    split; reflexivity. }
  right. exists user, r, body, s.
  rewrite (patch_try_right_word c user w Hf r Hr Ho Hp body s Hb Hw He Hu).
  apply strict_neq_false in Ho. repeat split; auto.
Qed.

(** The answer of reservation GET depends on the collaborators and the
    stored rows only. *)
Lemma reservation_get_depends_on_rows (c : Context) (w1 w2 : World) :
  env w1 = env w2 -> db w1 = db w2 ->
  fst (reservation_get c w1) = fst (reservation_get c w2).
Proof.
  intros He Hd. unfold reservation_get.
  destruct (truthy (param_id c)); [|reflexivity]. cbn.
  destruct (session_user_of (var_session c)) as [user|]; [|reflexivity].
  unfold try_catch, reservation_get_try, bind.
  rewrite !getReservationById_run. cbn. rewrite He, Hd.
  destruct (db_rejects (env w2) _); [reflexivity|].
  destruct (reservations (db w2) !! param_id c) as [r|]; [|reflexivity].
  destruct (strict_neq _ _); reflexivity.
Qed.

(** X1: whenever reservation GET answers with a reservation, it is the
    stored row of that id and its owner is the session user. *)
Theorem reservation_get_returns_only_own_row (c : Context) (w : World)
    (resp : Response) :
  fst (reservation_get c w) = Ok resp ->
  exists user r,
    session_user_of (var_session c) = Some user /\
    reservations (db w) !! param_id c = Some r /\
    user_id user = Some (res_userId r) /\
    resp = {| status := 200; headers := [];
              payload := PReservation (Some r) |}.
Proof.
  intros Hok.
  destruct (reservation_get_outcome c w)
    as [H|[H|[H|(user & r & _ & Hs & Hr & Hu & H)]]];
    rewrite H in Hok; cbn in Hok; try discriminate.
  injection Hok as <-. exists user, r. auto.
Qed.

Lemma reservation_get_returns_only_own_row_witness :
  exists user r,
    session_user_of (Scenario.signed Scenario.alice) = Some user /\
    reservations (db (Scenario.world (Scenario.quiet None) false)) !! "r1"
      = Some r /\
    user_id user = Some (res_userId r) /\
    {| status := 200; headers := [];
       payload := PReservation (Some (Scenario.r1 false)) |} =
    {| status := 200; headers := []; payload := PReservation (Some r) |}.
Proof.
  exact (reservation_get_returns_only_own_row
           (Scenario.ctx "r1" None (Scenario.signed Scenario.alice))
           (Scenario.world (Scenario.quiet None) false)
           {| status := 200; headers := [];
              payload := PReservation (Some (Scenario.r1 false)) |}
           eq_refl).
Defined.

(** X2: reservation GET never changes the stored rows, calls the fetch
    accessor at most once and nothing else, and answers the same when
    the request is repeated. *)
Theorem reservation_get_is_read_only (c : Context) (w : World) :
  db (snd (reservation_get c w)) = db w /\
  (trace (snd (reservation_get c w)) = trace w \/
   trace (snd (reservation_get c w)) =
     (trace w ++ [EvDb (CallGetReservationById (param_id c))])%list) /\
  fst (reservation_get c (snd (reservation_get c w))) =
    fst (reservation_get c w).
Proof.
  assert (Hw : snd (reservation_get c w) = w \/
               snd (reservation_get c w) =
                 log_event (EvDb (CallGetReservationById (param_id c))) w).
  { destruct (reservation_get_outcome c w)
      as [H|[H|[H|(user & r & _ & _ & _ & _ & H)]]]; rewrite H; cbn; auto. }
  split; [|split].
  - destruct Hw as [->| ->]; reflexivity.
  - destruct Hw as [->| ->]; [left|right]; reflexivity.
  - apply reservation_get_depends_on_rows;
      destruct Hw as [->| ->]; reflexivity.
Qed.

(** X3: for a signed-in caller, a reservation that is not stored is
    answered with the generic 500, not with 404. *)
Theorem reservation_get_missing_is_500 (c : Context) (user : User)
    (w : World) :
  truthy (param_id c) = true ->
  session_user_of (var_session c) = Some user ->
  reservations (db w) !! param_id c = None ->
  fst (reservation_get c w) = Throw generic_error /\
  http_status (fst (reservation_get c w)) = 500.
Proof.
  intros Hid Hs Hr. rewrite (reservation_get_guarded c user w Hid Hs).
  unfold reservation_get_try, bind. rewrite getReservationById_run. cbn.
  destruct (db_rejects _ _); [split; reflexivity|]. rewrite Hr.
  split; reflexivity.
Qed.

Lemma reservation_get_missing_is_500_witness :
  http_status
    (fst (reservation_get
            (Scenario.ctx "r9" None (Scenario.signed Scenario.alice))
            (Scenario.world (Scenario.quiet None) false))) = 500.
Proof.
  apply (reservation_get_missing_is_500
           (Scenario.ctx "r9" None (Scenario.signed Scenario.alice))
           Scenario.alice (Scenario.world (Scenario.quiet None) false));
    reflexivity.
Defined.

(** X4: reservation PATCH answers with success only when the session
    user owns the stored reservation, it was unpaid, and the body holds
    a string whose lower case is the confirmation word; the answer then
    carries the row with the flag set, which is what is stored
    afterwards. *)
Theorem reservation_patch_succeeds_only_if (c : Context) (w : World)
    (resp : Response) :
  fst (reservation_patch c w) = Ok resp ->
  exists user r body s,
    session_user_of (var_session c) = Some user /\
    reservations (db w) !! param_id c = Some r /\
    user_id user = Some (res_userId r) /\
    hasCompletedPayment r = false /\
    req_body c = Some body /\
    string_magicWord body = Some s /\
    toLowerCase s = "vercel" /\
    resp = {| status := 200; headers := [];
              payload := PReservation (Some (Queries.with_payment true r)) |} /\
    reservations (db (snd (reservation_patch c w))) !! param_id c =
      Some (Queries.with_payment true r).
Proof.
  intros Hok.
  destruct (reservation_patch_outcome c w)
    as [H|[H|[[H _]|(user & r & body & s & _ & Hs & Hr & Hu & Hp & Hb & Hw
                     & He & H & Hdb)]]];
    try (rewrite H in Hok; cbn in Hok; discriminate).
  rewrite H in Hok. injection Hok as <-.
  exists user, r, body, s. repeat split; auto.
  rewrite Hdb. cbn. apply lookup_insert_eq.
Qed.

Lemma reservation_patch_succeeds_only_if_witness :
  exists user r body s,
    session_user_of (Scenario.signed Scenario.alice) = Some user /\
    reservations (db (Scenario.world (Scenario.quiet None) false)) !! "r1"
      = Some r /\
    user_id user = Some (res_userId r) /\
    hasCompletedPayment r = false /\
    Scenario.magic "VERCEL" = Some body /\
    string_magicWord body = Some s /\
    toLowerCase s = "vercel" /\
    {| status := 200; headers := [];
       payload := PReservation (Some (Scenario.r1 true)) |} =
    {| status := 200; headers := [];
       payload := PReservation (Some (Queries.with_payment true r)) |} /\
    reservations
      (db (snd (reservation_patch
                  (Scenario.ctx "r1" (Scenario.magic "VERCEL")
                     (Scenario.signed Scenario.alice))
                  (Scenario.world (Scenario.quiet None) false)))) !! "r1" =
      Some (Queries.with_payment true r).
Proof.
  exact (reservation_patch_succeeds_only_if
           (Scenario.ctx "r1" (Scenario.magic "VERCEL")
              (Scenario.signed Scenario.alice))
           (Scenario.world (Scenario.quiet None) false)
           {| status := 200; headers := [];
              payload := PReservation (Some (Scenario.r1 true)) |}
           eq_refl).
Defined.

(** X5: whatever the request, reservation PATCH leaves the chats alone,
    creates and removes no reservation, never changes the identifier,
    the owner or the details of a row, never touches a row other than
    the one named by the path, and never takes a payment back. *)
Theorem reservation_patch_frame (c : Context) (w : World) (k : string) :
  chats (db (snd (reservation_patch c w))) = chats (db w) /\
  match reservations (db w) !! k with
  | None => reservations (db (snd (reservation_patch c w))) !! k = None
  | Some r =>
      exists r',
        reservations (db (snd (reservation_patch c w))) !! k = Some r' /\
        res_id r' = res_id r /\
        res_userId r' = res_userId r /\
        details r' = details r /\
        (hasCompletedPayment r = true -> r' = r) /\
        (k <> param_id c -> r' = r)
  end.
Proof.
  assert (Hsame : db (snd (reservation_patch c w)) = db w ->
    chats (db (snd (reservation_patch c w))) = chats (db w) /\
    match reservations (db w) !! k with
    | None => reservations (db (snd (reservation_patch c w))) !! k = None
    | Some r =>
        exists r',
          reservations (db (snd (reservation_patch c w))) !! k = Some r' /\
          res_id r' = res_id r /\ res_userId r' = res_userId r /\
          details r' = details r /\
          (hasCompletedPayment r = true -> r' = r) /\
          (k <> param_id c -> r' = r)
    end).
  { intros ->. split; [reflexivity|].
    destruct (reservations (db w) !! k) as [r|]; [|reflexivity].
    exists r. repeat split; auto. }
  destruct (reservation_patch_outcome c w)
    as [H|[H|[[_ H]|(user & r0 & body & s & _ & _ & Hr & _ & Hp & _ & _ & _
                     & _ & Hdb)]]].
  - apply Hsame. rewrite H. reflexivity.
  - apply Hsame. rewrite H. reflexivity.
  - apply Hsame. exact H.
  - rewrite Hdb. cbn. split; [reflexivity|].
    destruct (decide (param_id c = k)) as [<-|Hne].
    + rewrite Hr, lookup_insert_eq. exists (Queries.with_payment true r0).
      repeat split; auto.
      * rewrite Hp. discriminate.
      * intros Hk. destruct (Hk eq_refl).
    + rewrite lookup_insert_ne by exact Hne.
      destruct (reservations (db w) !! k) as [r|]; [|reflexivity].
      exists r. repeat split; auto.
Qed.

(** X6: the only statuses a caller of reservation PATCH can see are 200,
    401, 404 and 500; the 400 and 409 thrown inside the [try] block
    never reach the caller. *)
Theorem reservation_patch_statuses (c : Context) (w : World) :
  In (http_status (fst (reservation_patch c w))) [200; 401; 404; 500].
Proof.
  destruct (reservation_patch_outcome c w)
    as [H|[H|[[H _]|(user & r0 & body & s & _ & _ & _ & _ & _ & _ & _ & _
                     & H & _)]]]; rewrite H; cbn; auto.
Qed.

(** X7: once a PATCH has succeeded, no later PATCH of the same
    reservation succeeds, whoever sends it and whatever its body, and
    the stored rows stay as the first one left them, the flag set. *)
Theorem reservation_patch_pays_once (c c2 : Context) (w : World)
    (resp : Response) :
  fst (reservation_patch c w) = Ok resp ->
  param_id c2 = param_id c ->
  (forall resp2,
     fst (reservation_patch c2 (snd (reservation_patch c w))) <> Ok resp2) /\
  db (snd (reservation_patch c2 (snd (reservation_patch c w)))) =
    db (snd (reservation_patch c w)) /\
  exists r,
    reservations (db (snd (reservation_patch c w))) !! param_id c = Some r /\
    hasCompletedPayment r = true.
Proof.
  intros Hok Hid.
  destruct (reservation_patch_outcome c w)
    as [H|[H|[[H _]|(user & r & body & s & _ & _ & Hr & _ & _ & _ & _ & _
                     & _ & Hdb)]]];
    try (rewrite H in Hok; cbn in Hok; discriminate).
  assert (Hpaid : reservations (db (snd (reservation_patch c w)))
                    !! param_id c2 = Some (Queries.with_payment true r)).
  { rewrite Hdb, Hid. cbn. apply lookup_insert_eq. }
  set (w1 := snd (reservation_patch c w)) in *.
  destruct (reservation_patch_outcome c2 w1)
    as [H|[H|[[H Hd]|(user2 & r2 & body2 & s2 & _ & _ & Hr2 & _ & Hp2 & _)]]].
  - rewrite H. cbn. split; [discriminate|]. split; [reflexivity|].
    rewrite <- Hid. eauto.
  - rewrite H. cbn. split; [discriminate|]. split; [reflexivity|].
    rewrite <- Hid. eauto.
  - rewrite H. split; [discriminate|]. split; [exact Hd|].
    rewrite <- Hid. eauto.
  - rewrite Hpaid in Hr2. injection Hr2 as <-. discriminate.
Qed.

Lemma reservation_patch_pays_once_witness :
  exists r,
    reservations
      (db (snd (reservation_patch
                  (Scenario.ctx "r1" (Scenario.magic "vercel")
                     (Scenario.signed Scenario.alice))
                  (Scenario.world (Scenario.quiet None) false)))) !! "r1"
      = Some r /\
    hasCompletedPayment r = true.
Proof.
  apply (reservation_patch_pays_once
           (Scenario.ctx "r1" (Scenario.magic "vercel")
              (Scenario.signed Scenario.alice))
           (Scenario.ctx "r1" (Scenario.magic "vercel")
              (Scenario.signed Scenario.alice))
           (Scenario.world (Scenario.quiet None) false)
           {| status := 200; headers := [];
              payload := PReservation (Some (Scenario.r1 true)) |});
    reflexivity.
Defined.

(** X8: when every check has passed but the update accessor rejects,
    reservation PATCH answers with the generic 500 and the reservation
    stays unpaid. *)
Theorem reservation_patch_update_rejected (c : Context) (user : User)
    (r : Reservation) (w : World) (body : JSON) (s : string) :
  truthy (param_id c) = true ->
  session_user_of (var_session c) = Some user ->
  db_rejects (env w) (CallGetReservationById (param_id c)) = false ->
  reservations (db w) !! param_id c = Some r ->
  strict_neq (res_userId r) (user_id user) = false ->
  hasCompletedPayment r = false ->
  req_body c = Some body ->
  string_magicWord body = Some s ->
  toLowerCase s = "vercel" ->
  db_rejects (env w) (CallUpdateReservation (param_id c) true) = true ->
  fst (reservation_patch c w) = Throw generic_error /\
  db (snd (reservation_patch c w)) = db w /\
  In (EvDb (CallUpdateReservation (param_id c) true))
     (trace (snd (reservation_patch c w))).
Proof.
  intros Hid Hs Hf Hr Ho Hp Hb Hw He Hu.
  rewrite (reservation_patch_guarded c user w Hid Hs),
    (patch_try_update_rejected c user w r body s Hf Hr Ho Hp Hb Hw He Hu).
  cbn. repeat split. rewrite !in_app_iff. cbn. auto.
Qed.

Lemma reservation_patch_update_rejected_witness :
  fst (reservation_patch
         (Scenario.ctx "r1" (Scenario.magic "vercel")
            (Scenario.signed Scenario.alice))
         {| env := {| db_rejects := fun call =>
                        match call with
                        | CallUpdateReservation _ _ => true
                        | _ => false
                        end;
                      auth_result := fun _ => None;
                      uuid_at := fun _ => "uuid-0";
                      reservationPrice := fun _ => 850 |};
            db := db (Scenario.world (Scenario.quiet None) false);
            auth_calls := 0; uuid_calls := 0; trace := [] |}) =
  Throw generic_error.
Proof.
  apply (reservation_patch_update_rejected
           (Scenario.ctx "r1" (Scenario.magic "vercel")
              (Scenario.signed Scenario.alice))
           Scenario.alice (Scenario.r1 false) _
           (JObject [("magicWord", JString "vercel")]) "vercel");
    reflexivity.
Defined.

(** ** Outcomes of chat DELETE *)

Lemma deleteChatById_run id w :
  Queries.deleteChatById id w =
  let w' := log_event (EvDb (CallDeleteChatById id)) w in
  if db_rejects (env w) (CallDeleteChatById id)
  then (Throw DbError, w')
  else
    (Ok tt,
     set_db {| reservations := reservations (db w);
               chats := delete id (chats (db w)) |} w').
Proof.
  unfold Queries.deleteChatById, Queries.db_call, Queries.read_db,
    Queries.write_db, bind, ret.
  destruct (db_rejects _ _); reflexivity.
Qed.

(** Every run of chat DELETE ends in one of four ways; a failure inside
    the [try] block is logged before the generic error is thrown. *)
Lemma chat_delete_outcome (c : Context) (w : World) :
  chat_delete c w = (Throw (HTTPException 404 "Not Found"), w) \/
  chat_delete c w = (Throw (HTTPException 401 "Unauthorized"), w) \/
  (exists w',
     chat_delete c w =
       (Throw chat_error,
        log_event (EvConsoleError "Error deleting chat:") w') /\
     db w' = db w) \/
  exists user ch,
    truthy (param_id c) = true /\
    session_user_of (var_session c) = Some user /\
    chats (db w) !! param_id c = Some ch /\
    user_id user = Some (chat_userId ch) /\
    fst (chat_delete c w) =
      Ok {| status := 200; headers := [];
            payload := PText "Chat deleted successfully" |} /\
    db (snd (chat_delete c w)) =
      {| reservations := reservations (db w);
         chats := delete (param_id c) (chats (db w)) |}.
Proof.
  destruct (truthy (param_id c)) eqn:Hid.
  2:{ left. unfold chat_delete. rewrite Hid. reflexivity. }
  destruct (session_user_of (var_session c)) as [user|] eqn:Hs.
  2:{ right; left. unfold chat_delete. rewrite Hid, Hs. reflexivity. }
  right; right. rewrite (chat_delete_guarded c user w Hid Hs).
  unfold chat_delete_try, bind. rewrite getChatById_run. cbn.
  destruct (db_rejects (env w) (CallGetChatById (param_id c)));
    [left; eexists; split; reflexivity|].
  destruct (chats (db w) !! param_id c) as [ch|] eqn:Hc;
    [|left; eexists; split; reflexivity].
  destruct (strict_neq (chat_userId ch) (user_id user)) eqn:Ho;
    [left; eexists; split; reflexivity|].
  rewrite deleteChatById_run. cbn.
  destruct (db_rejects (env w) (CallDeleteChatById (param_id c)));
    [left; eexists; split; reflexivity|].
  right. exists user, ch. apply strict_neq_false in Ho.
  repeat split; auto.
Qed.

(** X9: chat DELETE never touches a reservation, never touches a chat
    other than the one named by the path, and removes that one only
    when its owner is the session user. *)
Theorem chat_delete_removes_only_own_chat (c : Context) (w : World)
    (k : string) :
  reservations (db (snd (chat_delete c w))) = reservations (db w) /\
  (chats (db (snd (chat_delete c w))) !! k = chats (db w) !! k \/
   k = param_id c /\
   chats (db (snd (chat_delete c w))) !! k = None /\
   exists user ch,
     session_user_of (var_session c) = Some user /\
     chats (db w) !! k = Some ch /\
     user_id user = Some (chat_userId ch)).
Proof.
  destruct (chat_delete_outcome c w)
    as [H|[H|[(w' & H & Hd)|(user & ch & _ & Hs & Hc & Hu & _ & Hdb)]]].
  - rewrite H. cbn. auto.
  - rewrite H. cbn. auto.
  - rewrite H. cbn. rewrite Hd. auto.
  - rewrite Hdb. cbn. split; [reflexivity|].
    destruct (decide (param_id c = k)) as [<-|Hne].
    + right. split; [reflexivity|]. rewrite lookup_delete_eq.
      split; [reflexivity|]. eauto.
    + left. apply lookup_delete_ne. exact Hne.
Qed.

(** X10: the owner's DELETE answers 200 and removes the chat; the same
    request sent again finds no chat and is answered with the generic
    500. *)
Theorem chat_delete_twice (c : Context) (user : User) (ch : Chat)
    (w : World) :
  truthy (param_id c) = true ->
  session_user_of (var_session c) = Some user ->
  db_rejects (env w) (CallGetChatById (param_id c)) = false ->
  db_rejects (env w) (CallDeleteChatById (param_id c)) = false ->
  chats (db w) !! param_id c = Some ch ->
  user_id user = Some (chat_userId ch) ->
  fst (chat_delete c w) =
    Ok {| status := 200; headers := [];
          payload := PText "Chat deleted successfully" |} /\
  chats (db (snd (chat_delete c w))) = delete (param_id c) (chats (db w)) /\
  fst (chat_delete c (snd (chat_delete c w))) = Throw chat_error.
Proof.
  intros Hid Hs Hg Hd Hc Hu. apply strict_neq_false in Hu.
  assert (Hrun : chat_delete c w =
    (Ok {| status := 200; headers := [];
           payload := PText "Chat deleted successfully" |},
     set_db {| reservations := reservations (db w);
               chats := delete (param_id c) (chats (db w)) |}
       (log_event (EvDb (CallDeleteChatById (param_id c)))
          (log_event (EvDb (CallGetChatById (param_id c))) w)))).
  { rewrite (chat_delete_guarded c user w Hid Hs).
    unfold chat_delete_try, bind. rewrite getChatById_run, Hg. cbn.
    rewrite Hc, Hu, deleteChatById_run. cbn. rewrite Hd. reflexivity. }
  rewrite Hrun. cbn. split; [reflexivity|]. split; [reflexivity|].
  rewrite (chat_delete_guarded c user _ Hid Hs).
  unfold chat_delete_try, bind. rewrite getChatById_run. cbn. rewrite Hg.
  rewrite lookup_delete_eq. reflexivity.
Qed.

Lemma chat_delete_twice_witness :
  fst (chat_delete
         (Scenario.ctx "c1" None (Scenario.signed Scenario.alice))
         (snd (chat_delete
                 (Scenario.ctx "c1" None (Scenario.signed Scenario.alice))
                 (Scenario.world (Scenario.quiet None) false)))) =
  Throw chat_error.
Proof.
  apply (chat_delete_twice
           (Scenario.ctx "c1" None (Scenario.signed Scenario.alice))
           Scenario.alice Scenario.c1
           (Scenario.world (Scenario.quiet None) false));
    reflexivity.
Defined.

(** X11: for a signed-in caller, deleting a chat that is not stored is
    answered with the generic 500, not 404; nothing is deleted, the
    delete accessor is not called, and the failure is logged. *)
Theorem chat_delete_missing_is_500 (c : Context) (user : User) (w : World) :
  truthy (param_id c) = true ->
  session_user_of (var_session c) = Some user ->
  chats (db w) !! param_id c = None ->
  fst (chat_delete c w) = Throw chat_error /\
  db (snd (chat_delete c w)) = db w /\
  trace (snd (chat_delete c w)) =
    (trace w ++ [EvDb (CallGetChatById (param_id c));
                 EvConsoleError "Error deleting chat:"])%list.
Proof.
  intros Hid Hs Hc. rewrite (chat_delete_guarded c user w Hid Hs).
  unfold chat_delete_try, bind. rewrite getChatById_run. cbn.
  destruct (db_rejects _ _); cbn; [|rewrite Hc; cbn];
    rewrite <- app_assoc; repeat split.
Qed.

Lemma chat_delete_missing_is_500_witness :
  fst (chat_delete
         (Scenario.ctx "c9" None (Scenario.signed Scenario.alice))
         (Scenario.world (Scenario.quiet None) false)) = Throw chat_error.
Proof.
  apply (chat_delete_missing_is_500
           (Scenario.ctx "c9" None (Scenario.signed Scenario.alice))
           Scenario.alice (Scenario.world (Scenario.quiet None) false));
    reflexivity.
Defined.

(** X12: an empty path parameter is answered with 404 by reservation
    GET, reservation PATCH and chat DELETE before the session is looked
    at, so even for a caller without a session, and nothing is done. *)
Theorem empty_id_is_404 (c : Context) (w : World) :
  param_id c = "" ->
  reservation_get c w = (Throw (HTTPException 404 "Not Found!"), w) /\
  reservation_patch c w = (Throw (HTTPException 404 "Not Found!"), w) /\
  chat_delete c w = (Throw (HTTPException 404 "Not Found"), w).
Proof.
  intros Hid. unfold reservation_get, reservation_patch, chat_delete.
  rewrite Hid. repeat split.
Qed.

Lemma empty_id_is_404_witness :
  chat_delete (Scenario.ctx "" None None)
    (Scenario.world (Scenario.quiet None) false) =
  (Throw (HTTPException 404 "Not Found"),
   Scenario.world (Scenario.quiet None) false).
Proof.
  apply (empty_id_is_404 (Scenario.ctx "" None None)
           (Scenario.world (Scenario.quiet None) false)).
  reflexivity.
Defined.

(** ** The chat POST route *)

Lemma zValidator_json_run (c : Context) (w : World) :
  zValidator_json c w =
  match req_body c with
  | None =>
      (Throw (HTTPException 400 "Malformed JSON in request body"),
       log_event EvReqJson w)
  | Some body =>
      match schema body with
      | Some input => (Ok (inr input), log_event EvReqJson w)
      | None =>
          (Ok (inl {| status := 400; headers := [];
                      payload := PValidationError |}),
           log_event EvReqJson w)
      end
  end.
Proof.
  unfold zValidator_json, bind, try_catch, req_json, bind, emit.
  destruct (req_body c) as [body|]; cbn; [|reflexivity].
  destruct (schema body); reflexivity.
Qed.

Lemma chat_post_route_run (c : Context) (w : World) :
  chat_post_route c w =
  chat_post_validated
    {| param_id := param_id c; req_body := req_body c;
       var_session := auth_result (env w) (auth_calls w) |}
    {| env := env w; db := db w; auth_calls := S (auth_calls w);
       uuid_calls := uuid_calls w; trace := (trace w ++ [EvAuth])%list |}.
Proof. reflexivity. Qed.

(** X13: on the chat POST route the body is validated before the
    handler looks at the session: a body that cannot be read or is not
    of the schema's shape is answered with 400 whatever the session
    resolves to, signed in or not; no streaming call is made and the
    stored rows are left alone. *)
Theorem chat_post_route_rejects_before_session (c : Context) (w : World) :
  match req_body c with
  | Some body => schema_well_formed body = false
  | None => True
  end ->
  http_status (result_map fst (fst (chat_post_route c w))) = 400 /\
  db (snd (chat_post_route c w)) = db w /\
  trace (snd (chat_post_route c w)) = (trace w ++ [EvAuth; EvReqJson])%list.
Proof.
  intros Hbad. rewrite chat_post_route_run.
  unfold chat_post_validated, bind. rewrite zValidator_json_run. cbn.
  destruct (req_body c) as [body|].
  - destruct (schema body) as [input|] eqn:Hin.
    + assert (is_Some (schema body)) as Hsome by (rewrite Hin; eauto).
      apply schema_accepts in Hsome. congruence.
    + cbn. rewrite <- app_assoc. repeat split.
  - cbn. rewrite <- app_assoc. repeat split.
Qed.

Lemma chat_post_route_rejects_before_session_witness :
  http_status
    (result_map fst
       (fst (chat_post_route
               (Scenario.ctx "" (Some (JArray [])) None)
               (Scenario.world (Scenario.quiet (Scenario.signed Scenario.alice))
                  false)))) = 400.
Proof.
  apply (chat_post_route_rejects_before_session
           (Scenario.ctx "" (Some (JArray [])) None)
           (Scenario.world (Scenario.quiet (Scenario.signed Scenario.alice))
              false)).
  reflexivity.
Defined.

(** ** The request schema *)

Lemma z_array_messages_of_json (ms : list Message) :
  z_array_messages (map message_json ms) = Some ms.
Proof.
  induction ms as [|[r t] rest IH]; [reflexivity|].
  cbn [map z_array_messages]. rewrite IH.
  destruct r; reflexivity.
Qed.

(** X15: a conversation identifier and a list of messages, written as
    the JSON object the schema declares, is accepted and read back
    exactly: same identifier, same messages, same order, empty texts
    included. *)
Theorem schema_reads_back (input : ChatInput) :
  schema (input_json input) = Some input /\
  schema_well_formed (input_json input) = true.
Proof.
  assert (Hs : schema (input_json input) = Some input).
  { destruct input as [id ms]. unfold schema, input_json. cbn.
    rewrite z_array_messages_of_json. reflexivity. }
  split; [exact Hs|]. apply schema_accepts. rewrite Hs. eauto.
Qed.

Lemma get_field_other (k k' : string) (v : JSON)
    (before after : list (string * JSON)) :
  k <> k' ->
  get_field k (before ++ (k', v) :: after) = get_field k (before ++ after).
Proof.
  intros Hne. induction before as [|[k0 v0] rest IH]; cbn.
  - destruct (get_field k after); [reflexivity|].
    destruct (String.eqb_spec k k'); [contradiction|reflexivity].
  - rewrite IH. reflexivity.
Qed.

(** X16: a key other than [id] and [messages] in the request body plays
    no part in validation, wherever it stands and whatever it holds:
    the body is accepted or rejected, and parsed, as without it. *)
Theorem schema_ignores_unknown_keys (k : string) (v : JSON)
    (before after : list (string * JSON)) :
  k <> "id" -> k <> "messages" ->
  schema (JObject (before ++ (k, v) :: after)) =
  schema (JObject (before ++ after)).
Proof.
  intros Hid Hms. unfold schema.
  rewrite !(get_field_other _ k v before after) by congruence.
  reflexivity.
Qed.

Lemma schema_ignores_unknown_keys_witness :
  schema (JObject ([("id", JString "c2")] ++
                   ("debug", JBool true) :: [("messages", JArray [])])) =
  schema (JObject ([("id", JString "c2")] ++ [("messages", JArray [])])).
Proof.
  apply (schema_ignores_unknown_keys "debug" (JBool true)
           [("id", JString "c2")] [("messages", JArray [])]);
    discriminate.
Defined.

(** X17: the messages handed to the streaming call are the messages of
    the request whose text is not empty, converted one by one, in the
    order of the request; filtering again changes nothing. *)
Theorem filter_keeps_messages_with_text (ms : list Message) :
  List.filter has_content (convertToCoreMessages ms) =
    convertToCoreMessages (List.filter has_text ms) /\
  List.filter has_content (List.filter has_content (convertToCoreMessages ms))
    = List.filter has_content (convertToCoreMessages ms) /\
  (length (List.filter has_content (convertToCoreMessages ms)) <= length ms)%nat.
Proof.
  assert (Hc : forall m : Message,
             has_content
               {| role := match m_role m with
                          | RoleUser => CoreUser
                          | RoleAssistant => CoreAssistant
                          end;
                  content := ContentText (m_content m) |} = has_text m).
  { intros m. unfold has_content, has_text, truthy. cbn.
    destruct (m_content m); reflexivity. }
  unfold convertToCoreMessages. split; [|split].
  - induction ms as [|m rest IH]; [reflexivity|].
    cbn [map List.filter]. rewrite Hc, IH.
    destruct (has_text m); reflexivity.
  - induction ms as [|m rest IH]; [reflexivity|].
    cbn [map List.filter]. rewrite Hc. destruct (has_text m) eqn:E;
      [|exact IH].
    cbn [List.filter]. rewrite Hc, E, IH. reflexivity.
  - induction ms as [|m rest IH]; [reflexivity|].
    cbn [map List.filter]. destruct (has_content _); cbn [length]; lia.
Qed.

(** ** Tool executors *)

Lemma createReservation_execute_run (p : Props) (w : World) :
  Tools.createReservation_execute p w =
  let price := reservationPrice (env w) p in
  let id := uuid_at (env w) (uuid_calls w) in
  let dt := {| props := p; totalPriceInUSD := price |} in
  let w1 := {| env := env w; db := db w; auth_calls := S (auth_calls w);
               uuid_calls := S (uuid_calls w);
               trace := (((trace w ++ [EvPrice]) ++ [EvAuth])
                           ++ [EvGenerateUUID])%list |} in
  match truthy_user_id
          (session_user_of (auth_result (env w) (auth_calls w))) with
  | Some userId =>
      let w2 := log_event (EvDb (CallCreateReservation id userId dt)) w1 in
      if db_rejects (env w) (CallCreateReservation id userId dt)
      then (Throw DbError, w2)
      else
        (Ok (Tools.Created id p price),
         set_db {| reservations :=
                     <[id := {| res_id := id; res_userId := userId;
                                hasCompletedPayment := false;
                                details := dt |}]> (reservations (db w));
                   chats := chats (db w) |} w2)
  | None =>
      (Ok (Tools.NotSignedIn "User is not signed in to perform this action!"),
       w1)
  end.
Proof.
  unfold Tools.createReservation_execute, bind, generateReservationPrice,
    auth, generateUUID. cbn.
  destruct (truthy_user_id _) as [userId|]; [|reflexivity].
  unfold bind. rewrite createReservation_run. cbn.
  destruct (db_rejects _ _); reflexivity.
Qed.

(** X18: the [verifyPayment] tool fetches the reservation once and does
    nothing else: it never changes the stored rows and never resolves a
    session.  It throws when the fetch rejects, throws a type error when
    no reservation is stored under the id (it does not answer "not
    paid"), and otherwise returns exactly the stored payment flag. *)
Theorem verifyPayment_only_reads (reservationId : string) (w : World) :
  fst (Tools.verifyPayment_execute reservationId w) =
    (if db_rejects (env w) (CallGetReservationById reservationId)
     then Throw DbError
     else
       match reservations (db w) !! reservationId with
       | Some r => Ok (hasCompletedPayment r)
       | None => Throw (TypeError "Cannot read properties of undefined")
       end) /\
  db (snd (Tools.verifyPayment_execute reservationId w)) = db w /\
  auth_calls (snd (Tools.verifyPayment_execute reservationId w)) =
    auth_calls w /\
  trace (snd (Tools.verifyPayment_execute reservationId w)) =
    (trace w ++ [EvDb (CallGetReservationById reservationId)])%list.
Proof.
  unfold Tools.verifyPayment_execute, bind.
  rewrite getReservationById_run. cbn.
  destruct (db_rejects _ _); cbn; [repeat split|].
  destruct (reservations (db w) !! reservationId) as [r|]; cbn;
    [destruct (hasCompletedPayment r)|]; repeat split.
Qed.

(** X19: when the session carries a user with an id but the database
    rejects the insert, the [createReservation] executor throws; it does
    not return the "not signed in" value, and nothing is stored. *)
Theorem createReservation_insert_rejected (p : Props) (w : World)
    (userId : string) :
  signed_in_as (auth_result (env w) (auth_calls w)) userId ->
  db_rejects (env w)
    (CallCreateReservation (uuid_at (env w) (uuid_calls w)) userId
       {| props := p; totalPriceInUSD := reservationPrice (env w) p |})
    = true ->
  fst (Tools.createReservation_execute p w) = Throw DbError /\
  db (snd (Tools.createReservation_execute p w)) = db w.
Proof.
  intros Hs Hrej. apply truthy_user_id_signed_in in Hs.
  rewrite createReservation_execute_run. cbn. rewrite Hs, Hrej.
  split; reflexivity.
Qed.

Lemma createReservation_insert_rejected_witness :
  fst (Tools.createReservation_execute Scenario.booking
         {| env := {| db_rejects := fun _ => true;
                      auth_result := fun _ => Scenario.signed Scenario.alice;
                      uuid_at := fun _ => "uuid-0";
                      reservationPrice := fun _ => 850 |};
            db := db (Scenario.world (Scenario.quiet None) false);
            auth_calls := 0; uuid_calls := 0; trace := [] |}) =
  Throw DbError.
Proof.
  apply (createReservation_insert_rejected Scenario.booking _ "A").
  - apply truthy_user_id_signed_in. reflexivity.
  - reflexivity.
Defined.

(** X20: a reservation made by the [createReservation] tool can be read
    back through reservation GET by the user it was made for: the answer
    is 200 with the booking, its price, and the payment flag unset. *)
Theorem created_reservation_is_readable (p : Props) (w : World)
    (userId : string) (c : Context) (user : User) :
  let id := uuid_at (env w) (uuid_calls w) in
  let dt := {| props := p; totalPriceInUSD := reservationPrice (env w) p |} in
  signed_in_as (auth_result (env w) (auth_calls w)) userId ->
  db_rejects (env w) (CallCreateReservation id userId dt) = false ->
  db_rejects (env w) (CallGetReservationById id) = false ->
  id <> "" ->
  param_id c = id ->
  session_user_of (var_session c) = Some user ->
  user_id user = Some userId ->
  fst (reservation_get c (snd (Tools.createReservation_execute p w))) =
    Ok {| status := 200; headers := [];
          payload :=
            PReservation
              (Some {| res_id := id; res_userId := userId;
                       hasCompletedPayment := false; details := dt |}) |}.
Proof.
  intros id dt Hs Hins Hget Hne Hid Hu Huid.
  apply truthy_user_id_signed_in in Hs.
  rewrite createReservation_execute_run. cbn. fold id dt.
  rewrite Hs, Hins. cbn.
  assert (Ht : truthy (param_id c) = true).
  { rewrite Hid. unfold truthy.
    destruct (String.eqb_spec id ""); [contradiction|reflexivity]. }
  rewrite (reservation_get_guarded c user _ Ht Hu).
  rewrite (reservation_get_try_run (param_id c) user _
             {| res_id := id; res_userId := userId;
                hasCompletedPayment := false; details := dt |}).
  - cbn. rewrite Huid, strict_neq_same. reflexivity.
  - cbn. rewrite Hid. exact Hget.
  - cbn. rewrite Hid. apply lookup_insert_eq.
Qed.

Lemma created_reservation_is_readable_witness :
  fst (reservation_get
         (Scenario.ctx "uuid-0" None (Scenario.signed Scenario.alice))
         (snd (Tools.createReservation_execute Scenario.booking
                 (Scenario.world
                    (Scenario.quiet (Scenario.signed Scenario.alice))
                    false)))) =
  Ok {| status := 200; headers := [];
        payload :=
          PReservation
            (Some {| res_id := "uuid-0"; res_userId := "A";
                     hasCompletedPayment := false;
                     details := {| props := Scenario.booking;
                                   totalPriceInUSD := 850 |} |}) |}.
Proof.
  apply (created_reservation_is_readable Scenario.booking
           (Scenario.world (Scenario.quiet (Scenario.signed Scenario.alice))
              false)
           "A"
           (Scenario.ctx "uuid-0" None (Scenario.signed Scenario.alice))
           Scenario.alice);
    try reflexivity.
  - apply truthy_user_id_signed_in. reflexivity.
  - discriminate.
Defined.

Lemma strict_neq_true (a : string) (b : option string) :
  b <> Some a -> strict_neq a b = true.
Proof.
  intros Hne. destruct (strict_neq a b) eqn:E; [reflexivity|].
  apply strict_neq_false in E. contradiction.
Qed.

(** ** The booking flow, end to end *)

(** X21: the flow the system prompt describes.  A reservation made by
    the [createReservation] tool is reported unpaid by [verifyPayment];
    once its owner has sent the confirmation word through reservation
    PATCH, [verifyPayment] reports it paid. *)
Theorem payment_flow (p : Props) (w : World) (userId : string)
    (c : Context) (user : User) (body : JSON) (s : string) :
  let id := uuid_at (env w) (uuid_calls w) in
  let dt := {| props := p; totalPriceInUSD := reservationPrice (env w) p |} in
  let w1 := snd (Tools.createReservation_execute p w) in
  let w2 := snd (reservation_patch c w1) in
  signed_in_as (auth_result (env w) (auth_calls w)) userId ->
  db_rejects (env w) (CallCreateReservation id userId dt) = false ->
  db_rejects (env w) (CallGetReservationById id) = false ->
  db_rejects (env w) (CallUpdateReservation id true) = false ->
  id <> "" ->
  param_id c = id ->
  session_user_of (var_session c) = Some user ->
  user_id user = Some userId ->
  req_body c = Some body ->
  string_magicWord body = Some s ->
  toLowerCase s = "vercel" ->
  fst (Tools.verifyPayment_execute id w1) = Ok false /\
  fst (reservation_patch c w1) =
    Ok {| status := 200; headers := [];
          payload :=
            PReservation
              (Some {| res_id := id; res_userId := userId;
                       hasCompletedPayment := true; details := dt |}) |} /\
  fst (Tools.verifyPayment_execute id w2) = Ok true.
Proof.
  intros id dt w1 w2 Hs Hins Hget Hupd Hne Hid Hu Huid Hb Hw He.
  apply truthy_user_id_signed_in in Hs.
  set (row := {| res_id := id; res_userId := userId;
                 hasCompletedPayment := false; details := dt |}).
  assert (Hw1 : env w1 = env w /\
                db w1 = {| reservations := <[id := row]> (reservations (db w));
                           chats := chats (db w) |}).
  { subst w1. rewrite createReservation_execute_run. cbn. fold id dt.
    rewrite Hs, Hins. split; reflexivity. }
  destruct Hw1 as [Henv Hdb].
  assert (Hrow : reservations (db w1) !! id = Some row).
  { rewrite Hdb. cbn. apply lookup_insert_eq. }
  assert (Hget1 : db_rejects (env w1) (CallGetReservationById id) = false)
    by (rewrite Henv; exact Hget).
  assert (Ht : truthy (param_id c) = true).
  { rewrite Hid. unfold truthy.
    destruct (String.eqb_spec id ""); [contradiction|reflexivity]. }
  assert (Hown : strict_neq (res_userId row) (user_id user) = false).
  { rewrite Huid. apply strict_neq_same. }
  assert (Hpatch : reservation_patch c w1 =
    (Ok {| status := 200; headers := [];
           payload := PReservation (Some (Queries.with_payment true row)) |},
     set_db {| reservations := <[id := Queries.with_payment true row]>
                                 (reservations (db w1));
               chats := chats (db w1) |}
       (log_event (EvDb (CallUpdateReservation id true))
          (log_event EvReqJson
             (log_event (EvDb (CallGetReservationById id)) w1))))).
  { assert (Hget' : db_rejects (env w1)
                      (CallGetReservationById (param_id c)) = false)
      by (rewrite Hid; exact Hget1).
    assert (Hrow' : reservations (db w1) !! param_id c = Some row)
      by (rewrite Hid; exact Hrow).
    assert (Hupd' : db_rejects (env w1)
                      (CallUpdateReservation (param_id c) true) = false)
      by (rewrite Hid, Henv; exact Hupd).
    rewrite (reservation_patch_guarded c user w1 Ht Hu).
    rewrite (patch_try_right_word c user w1 Hget' row Hrow' Hown eq_refl
               body s Hb Hw He Hupd'), Hid.
    reflexivity. }
  split; [|split].
  - rewrite (verifyPayment_run id w1 row Hget1 Hrow). reflexivity.
  - rewrite Hpatch. reflexivity.
  - subst w2. rewrite Hpatch. cbn [snd].
    rewrite (verifyPayment_run id _ (Queries.with_payment true row)).
    + reflexivity.
    + cbn. exact Hget1.
    + cbn. apply lookup_insert_eq.
Qed.

Lemma payment_flow_witness :
  fst (Tools.verifyPayment_execute "uuid-0"
         (snd (reservation_patch
                 (Scenario.ctx "uuid-0" (Scenario.magic "Vercel")
                    (Scenario.signed Scenario.alice))
                 (snd (Tools.createReservation_execute Scenario.booking
                         (Scenario.world
                            (Scenario.quiet (Scenario.signed Scenario.alice))
                            false)))))) = Ok true.
Proof.
  apply (payment_flow Scenario.booking
           (Scenario.world (Scenario.quiet (Scenario.signed Scenario.alice))
              false)
           "A"
           (Scenario.ctx "uuid-0" (Scenario.magic "Vercel")
              (Scenario.signed Scenario.alice))
           Scenario.alice
           (JObject [("magicWord", JString "Vercel")]) "Vercel");
    try reflexivity.
  - apply truthy_user_id_signed_in. reflexivity.
  - discriminate.
Defined.

(** X22: a conversation saved at the end of a stream can be deleted by
    the user it was saved for, which restores the chats as they were
    without it; the same request from another user is answered with the
    generic 500 and the conversation stays. *)
Theorem saved_chat_can_be_deleted_by_owner (session : Session)
    (coreMessages responseMessages : list CoreMessage) (w : World)
    (userId : string) (c : Context) (user : User) :
  let id := param_id c in
  let history := (coreMessages ++ responseMessages)%list in
  let w1 := snd (onFinish session id coreMessages responseMessages w) in
  signed_in_as (Some session) userId ->
  db_rejects (env w) (CallSaveChat id history userId) = false ->
  db_rejects (env w) (CallGetChatById id) = false ->
  db_rejects (env w) (CallDeleteChatById id) = false ->
  truthy id = true ->
  session_user_of (var_session c) = Some user ->
  (user_id user = Some userId ->
   fst (chat_delete c w1) =
     Ok {| status := 200; headers := [];
           payload := PText "Chat deleted successfully" |} /\
   chats (db (snd (chat_delete c w1))) = delete id (chats (db w))) /\
  (user_id user <> Some userId ->
   fst (chat_delete c w1) = Throw chat_error /\
   chats (db (snd (chat_delete c w1))) !! id =
     Some {| chat_id := id; chat_userId := userId;
             chat_messages := history |}).
Proof.
  intros id history w1 Hs Hsave Hget Hdel Ht Hu.
  apply truthy_user_id_signed_in in Hs. cbn in Hs.
  assert (Hw1 : w1 =
    set_db {| reservations := reservations (db w);
              chats := <[id := {| chat_id := id; chat_userId := userId;
                                  chat_messages := history |}]>
                         (chats (db w)) |}
      (log_event (EvDb (CallSaveChat id history userId)) w)).
  { subst w1. rewrite onFinish_run, Hs. cbn. fold history.
    rewrite Hsave. reflexivity. }
  rewrite Hw1. rewrite (chat_delete_guarded c user _ Ht Hu).
  unfold chat_delete_try, bind. rewrite getChatById_run. cbn.
  fold id. rewrite Hget, lookup_insert_eq. cbn. split.
  - intros Huid. rewrite Huid, strict_neq_same, deleteChatById_run. cbn.
    fold id. rewrite Hdel. cbn. split; [reflexivity|].
    apply delete_insert_eq.
  - intros Hother. rewrite (strict_neq_true userId (user_id user) Hother).
    cbn. split; [reflexivity|]. apply lookup_insert_eq.
Qed.

Lemma saved_chat_can_be_deleted_by_owner_witness :
  fst (chat_delete
         (Scenario.ctx "c2" None (Scenario.signed Scenario.alice))
         (snd (onFinish {| session_user := Some Scenario.alice |} "c2"
                 [{| role := CoreUser; content := ContentText "hi" |}]
                 [{| role := CoreAssistant; content := ContentText "hello" |}]
                 (Scenario.world (Scenario.quiet None) false)))) =
  Ok {| status := 200; headers := [];
        payload := PText "Chat deleted successfully" |}.
Proof.
  apply (saved_chat_can_be_deleted_by_owner
           {| session_user := Some Scenario.alice |}
           [{| role := CoreUser; content := ContentText "hi" |}]
           [{| role := CoreAssistant; content := ContentText "hello" |}]
           (Scenario.world (Scenario.quiet None) false)
           "A"
           (Scenario.ctx "c2" None (Scenario.signed Scenario.alice))
           Scenario.alice);
    try reflexivity.
  apply (truthy_user_id_signed_in (Scenario.signed Scenario.alice) "A").
  reflexivity.
Defined.

(** ** The confirmation word *)

(** X23: the words that pass the comparison
    [magicWord.toLowerCase() !== "vercel"] are the six-letter words that
    spell "vercel" letter by letter, each letter in either case, and no
    others: no shorter or longer word, no surrounding blank. *)
Theorem confirmation_word_variants (s : string) :
  toLowerCase s = "vercel" <->
  exists a b c d e f,
    s = String a (String b (String c (String d (String e (String f ""))))) /\
    (a = "v" \/ a = "V")%char /\ (b = "e" \/ b = "E")%char /\
    (c = "r" \/ c = "R")%char /\ (d = "c" \/ d = "C")%char /\
    (e = "e" \/ e = "E")%char /\ (f = "l" \/ f = "L")%char.
Proof.
  split.
  - destruct s as [|a [|b [|c [|d [|e [|f [|g s]]]]]]]; cbn;
      try discriminate.
    intros [= Ha Hb Hc Hd He Hf].
    exists a, b, c, d, e, f. split; [reflexivity|].
    repeat split;
      auto using lower_is_v, lower_is_e, lower_is_r, lower_is_c, lower_is_l.
  - intros (a & b & c & d & e & f & -> & [-> | ->] & [-> | ->] & [-> | ->]
            & [-> | ->] & [-> | ->] & [-> | ->]); reflexivity.
Qed.

(** ** The history route *)

(** X24: the history route answers from the resolved session alone: 401
    when it carries no user, otherwise 200 with the placeholder list,
    the same for every user.  It calls no accessor, so the stored chats
    play no part in the answer and are left alone. *)
Theorem history_route_ignores_storage (c : Context) (w : World) :
  fst (history_route c w) =
    match session_user_of (auth_result (env w) (auth_calls w)) with
    | Some _ => Ok {| status := 200; headers := []; payload := PDummyChats |}
    | None => Throw (HTTPException 401 "Unauthorized")
    end /\
  db (snd (history_route c w)) = db w /\
  trace (snd (history_route c w)) = (trace w ++ [EvAuth])%list.
Proof.
  unfold history_route. rewrite sessionMiddleware_run.
  unfold history_get. cbn.
  destruct (session_user_of (auth_result (env w) (auth_calls w)));
    repeat split.
Qed.

(** ** Reservation PATCH without a readable body *)

(** X25: with the reservation stored, owned and unpaid, a request whose
    body is absent or cannot be parsed is answered with the generic 500;
    the update accessor is not called and the reservation stays unpaid. *)
Theorem reservation_patch_unreadable_body (c : Context) (user : User)
    (r : Reservation) (w : World) :
  truthy (param_id c) = true ->
  session_user_of (var_session c) = Some user ->
  db_rejects (env w) (CallGetReservationById (param_id c)) = false ->
  reservations (db w) !! param_id c = Some r ->
  strict_neq (res_userId r) (user_id user) = false ->
  hasCompletedPayment r = false ->
  req_body c = None ->
  fst (reservation_patch c w) = Throw generic_error /\
  db (snd (reservation_patch c w)) = db w /\
  trace (snd (reservation_patch c w)) =
    (trace w ++ [EvDb (CallGetReservationById (param_id c)); EvReqJson])%list.
Proof.
  intros Hid Hs Hf Hr Ho Hp Hb.
  rewrite (reservation_patch_guarded c user w Hid Hs),
    (patch_try_unreadable c user w Hf r Hr Ho Hp Hb).
  cbn. rewrite <- app_assoc. repeat split.
Qed.

Lemma reservation_patch_unreadable_body_witness :
  fst (reservation_patch
         (Scenario.ctx "r1" None (Scenario.signed Scenario.alice))
         (Scenario.world (Scenario.quiet None) false)) =
  Throw generic_error.
Proof.
  apply (reservation_patch_unreadable_body
           (Scenario.ctx "r1" None (Scenario.signed Scenario.alice))
           Scenario.alice (Scenario.r1 false)
           (Scenario.world (Scenario.quiet None) false));
    reflexivity.
Defined.
